(** * webhook-token-refresh: the token refresh webhook, embedded and verified

    A shallow embedding of [webhook-token-refresh.py]: the module-level
    configuration, the two generator strategies with their output parsers,
    the Lavalink updater and the [/refresh] route.

    Conventions.
    - A Python [str] is a [string]; the model is exact on ASCII text
      ([lower] and [strip] only know the ASCII letters and white space).
    - A Python value that flows through the parser (the result of
      [json.loads], a token, a visitor value) is a [pyval]; [PNone] is
      Python's [None].
    - Everything outside the process (file system, subprocesses, the HTTP
      client) answers through a [world]; each answer may depend on the
      history of the calls made so far, which the code threads as a [trace].
    - [json.loads] belongs to the Python library and is taken as a parameter
      [json_loads] of the parser; [json_decode] is an executable decoder for
      the integer/string fragment of JSON, used to run the code on concrete
      outputs. *)

From Stdlib Require Import Bool Arith ZArith Lia List Ascii String Floats.
From Stdlib Require Import DecimalString.
Import ListNotations.

Set Warnings "-register-all".

Local Open Scope string_scope.
Local Open Scope Z_scope.

(** ** Python strings *)

Module PyStr.

(** [s.find(c)] for a one-character [c]: the first index, or [-1]. *)
Fixpoint find (c : ascii) (s : string) : Z :=
  match s with
  | EmptyString => -1
  | String a r =>
      if Ascii.eqb a c then 0
      else let i := find c r in if i <? 0 then -1 else i + 1
  end.

(** [s.rfind(c)] for a one-character [c]: the last index, or [-1]. *)
Fixpoint rfind (c : ascii) (s : string) : Z :=
  match s with
  | EmptyString => -1
  | String a r =>
      let i := rfind c r in
      if 0 <=? i then i + 1
      else if Ascii.eqb a c then 0 else -1
  end.

Definition len (s : string) : Z := Z.of_nat (String.length s).

(** Index normalisation of a slice bound: a negative bound counts from the
    end, and both bounds are clamped to [0 .. len]. *)
Definition clamp (n i : Z) : Z :=
  if i <? 0 then Z.max 0 (i + n) else Z.min i n.

(** [s[a:b]]. *)
Definition slice (s : string) (a b : Z) : string :=
  let a' := clamp (len s) a in
  let b' := clamp (len s) b in
  String.substring (Z.to_nat a') (Z.to_nat (b' - a')) s.

(** [s.startswith(p)]. *)
Fixpoint startswith (p s : string) : bool :=
  match p, s with
  | EmptyString, _ => true
  | String a p', String b s' => Ascii.eqb a b && startswith p' s'
  | String _ _, EmptyString => false
  end.

(** [needle in s]. *)
Fixpoint contains (needle s : string) : bool :=
  startswith needle s ||
  match s with
  | EmptyString => false
  | String _ r => contains needle r
  end.

(** [c in s] for a one-character [c]. *)
Fixpoint has_char (c : ascii) (s : string) : bool :=
  match s with
  | EmptyString => false
  | String a r => Ascii.eqb a c || has_char c r
  end.

Definition lower_char (a : ascii) : ascii :=
  let n := nat_of_ascii a in
  if (65 <=? n)%nat && (n <=? 90)%nat then ascii_of_nat (n + 32) else a.

(** [s.lower()]. *)
Fixpoint lower (s : string) : string :=
  match s with
  | EmptyString => EmptyString
  | String a r => String (lower_char a) (lower r)
  end.

(** [s.split(c)] for a one-character separator: never empty. *)
Fixpoint split (c : ascii) (s : string) : list string :=
  match s with
  | EmptyString => [EmptyString]
  | String a r =>
      if Ascii.eqb a c then EmptyString :: split c r
      else match split c r with
           | h :: t => String a h :: t
           | [] => [String a EmptyString]
           end
  end.

(** The text after the first [c]: [s.split(c, 1)[1]]; [None] stands for the
    [IndexError] when [c] does not occur. *)
Fixpoint after_first (c : ascii) (s : string) : option string :=
  match s with
  | EmptyString => None
  | String a r => if Ascii.eqb a c then Some r else after_first c r
  end.

(** The characters [str.strip()] removes: tab, line feed, vertical tab,
    form feed, carriage return, the four separators 28..31 and space. *)
Definition is_space (a : ascii) : bool :=
  let n := nat_of_ascii a in
  ((9 <=? n)%nat && (n <=? 13)%nat) || ((28 <=? n)%nat && (n <=? 32)%nat).

Fixpoint lstrip_by (p : ascii -> bool) (s : string) : string :=
  match s with
  | EmptyString => EmptyString
  | String a r => if p a then lstrip_by p r else s
  end.

Fixpoint rstrip_by (p : ascii -> bool) (s : string) : string :=
  match s with
  | EmptyString => EmptyString
  | String a r =>
      match rstrip_by p r with
      | EmptyString => if p a then EmptyString else String a EmptyString
      | r' => String a r'
      end
  end.

Definition strip_by (p : ascii -> bool) (s : string) : string :=
  rstrip_by p (lstrip_by p s).

(** [s.strip()]. *)
Definition strip (s : string) : string := strip_by is_space s.

(** [s.strip(c)] for a one-character [c]. *)
Definition strip_char (c : ascii) (s : string) : string :=
  strip_by (fun a => Ascii.eqb a c) s.

End PyStr.

(** ** Python values *)

Inductive pyval : Type :=
| PNone
| PBool (b : bool)
| PInt (z : Z)
| PFloat (f : float)
| PStr (s : string)
| PList (l : list pyval)
| PDict (d : list (string * pyval)).

(** Truth value testing, as [if x], [not x] and [x or y] use it. *)
Definition truthy (v : pyval) : bool :=
  match v with
  | PNone => false
  | PBool b => b
  | PInt z => negb (z =? 0)
  | PFloat f => negb (PrimFloat.eqb f PrimFloat.zero)
  | PStr s => negb (String.eqb s "")
  | PList l => match l with [] => false | _ => true end
  | PDict d => match d with [] => false | _ => true end
  end.

(** [a or b]. *)
Definition py_or (a b : pyval) : pyval := if truthy a then a else b.

(** [d.get(k)]: the value bound to [k], [None] when there is none.  A dict
    is kept as its items in insertion order, one per key. *)
Fixpoint dict_get (d : list (string * pyval)) (k : string) : pyval :=
  match d with
  | [] => PNone
  | (k', v) :: r => if String.eqb k' k then v else dict_get r k
  end.

(** [d[k] = v]: a bound key keeps its place, a new key goes last. *)
Fixpoint dict_set (d : list (string * pyval)) (k : string) (v : pyval)
  : list (string * pyval) :=
  match d with
  | [] => [(k, v)]
  | (k', v') :: r =>
      if String.eqb k' k then (k', v) :: r else (k', v') :: dict_set r k v
  end.

(** ** Exceptions *)

(** The exception classes the handlers of the module tell apart, each with
    the text [str(e)] gives; [OtherException] is any other subclass of
    [Exception]. *)
Inductive exn : Type :=
| FileNotFoundError (msg : string)
| TimeoutExpired (msg : string)
| IndexError (msg : string)
| OtherException (msg : string).

(** [str(e)], as the f-strings and [refresh_token] print it. *)
Definition exn_str (e : exn) : string :=
  match e with
  | FileNotFoundError m | TimeoutExpired m | IndexError m
  | OtherException m => m
  end.

(** The outcome of a piece of code: a value, or a raised exception. *)
Inductive result (A : Type) : Type :=
| Ok (a : A)
| Raise (e : exn).

Arguments Ok {A} a.
Arguments Raise {A} e.

Definition dquote : ascii := "034"%char.

Definition newline : ascii := "010"%char.

(** ** The output parsers

    Lines 78-104 of [generate_token_python] and 137-158 of
    [generate_token_docker]: the JSON pass, common to both, and the line
    scan each of them has. *)

Section Parser.

(** [json.loads]: [None] when it raises. *)
Variable json_loads : string -> option pyval.

(** The parser's two locals, [(token, visitor_data)]. *)
Definition fields : Type := (pyval * pyval)%type.

(** The [try: ... except: pass] block.  A decoded value that is not a dict
    has no [get]: the [AttributeError] is swallowed like a decoding error,
    before either local is assigned. *)
Definition json_pass (output : string) : fields :=
  let json_start := PyStr.find "{" output in
  let json_end := PyStr.rfind "}" output + 1 in
  if (0 <=? json_start) && (json_start <? json_end) then
    match json_loads (PyStr.slice output json_start json_end) with
    | Some (PDict data) =>
        (py_or (dict_get data "token") (dict_get data "poToken"),
         py_or (dict_get data "visitorData") (dict_get data "visitor_data"))
    | _ => (PNone, PNone)
    end
  else (PNone, PNone).

(** The candidate value of a line: the text after its first colon
    ([line.split(':', 1)[1]]), stripped of white space, then of double
    quotes, then of single quotes. *)
Definition value_after_colon (line : string) : result string :=
  match PyStr.after_first ":" line with
  | Some rest =>
      Ok (PyStr.strip_char "'" (PyStr.strip_char dquote (PyStr.strip rest)))
  | None => Raise (IndexError "list index out of range")
  end.

(** The body of the [for line in output.split('\n')] loop of
    [generate_token_python]. *)
Definition scan_line_python (st : fields) (line : string) : result fields :=
  let '(token, visitor_data) := st in
  let line_lower := PyStr.lower line in
  if PyStr.contains "token" line_lower && PyStr.has_char ":" line
     && (1 <? Z.of_nat (List.length (PyStr.split ":" line))) then
    match value_after_colon line with
    | Ok potential_token =>
        if 20 <? PyStr.len potential_token
        then Ok (PStr potential_token, visitor_data)
        else Ok (token, visitor_data)
    | Raise e => Raise e
    end
  else if (PyStr.contains "visitor" line_lower
           && PyStr.contains "data" line_lower)
          || PyStr.contains "visitordata" line_lower then
    if PyStr.has_char ":" line then
      match value_after_colon line with
      | Ok v => Ok (token, PStr v)
      | Raise e => Raise e
      end
    else Ok (token, visitor_data)
  else Ok (token, visitor_data).

(** The body of the loop of [generate_token_docker]. *)
Definition scan_line_docker (st : fields) (line : string) : result fields :=
  let '(token, visitor_data) := st in
  if PyStr.contains "token" (PyStr.lower line) && PyStr.has_char ":" line then
    match value_after_colon line with
    | Ok v => Ok (PStr v, visitor_data)
    | Raise e => Raise e
    end
  else if PyStr.contains "visitor" (PyStr.lower line)
          && PyStr.contains "data" (PyStr.lower line)
          && PyStr.has_char ":" line then
    match value_after_colon line with
    | Ok v => Ok (token, PStr v)
    | Raise e => Raise e
    end
  else Ok (token, visitor_data).

(** A [for] loop over the lines: an exception ends it. *)
Fixpoint scan_lines (step : fields -> string -> result fields)
  (st : fields) (lines : list string) : result fields :=
  match lines with
  | [] => Ok st
  | line :: rest =>
      match step st line with
      | Ok st' => scan_lines step st' rest
      | Raise e => Raise e
      end
  end.

(** Both passes, with the scan given by [step]:
    [if not token or not visitor_data: for line in output.split('\n'): ...]. *)
Definition parse_with (step : fields -> string -> result fields)
  (output : string) : result fields :=
  let '(token, visitor_data) := json_pass output in
  if negb (truthy token) || negb (truthy visitor_data) then
    scan_lines step (token, visitor_data) (PyStr.split newline output)
  else Ok (token, visitor_data).

Definition parse_python : string -> result fields :=
  parse_with scan_line_python.

Definition parse_docker : string -> result fields :=
  parse_with scan_line_docker.

End Parser.

(** ** The world outside the process *)

Inductive level : Type := INFO | ERROR.

(** What the process does to the outside, in the order it does it. *)
Inductive event : Type :=
| EvLog (lvl : level) (msg : string)
| EvExists (path : string)
| EvGlob (pattern : string)
| EvPopen (argv : list string)
| EvSleep (seconds : Z)
| EvRun (argv : list string) (cwd : option string) (timeout : Z)
        (env_set : list (string * string))
| EvPost (url : string) (headers : list (string * string)) (json : pyval)
         (timeout : Z).

Definition trace : Type := list event.

(** A finished subprocess, [subprocess.CompletedProcess] with captured text. *)
Record completed : Type := Completed {
  returncode : Z;
  stdout : string;
  stderr : string
}.

(** An HTTP response of [requests]. *)
Record response : Type := Response {
  status_code : Z;
  text : string
}.

(** The answers of the outside.  Each one is given the history of the
    process so far, so the same call may be answered differently the second
    time (a file that disappears, a generator that fails once). *)
Record world : Type := World {
  environ : string -> option string;
  path_exists : trace -> string -> bool;
  glob_glob : trace -> string -> list string;
  popen : trace -> list string -> result unit;
  subprocess_run : trace -> list string -> result completed;
  requests_post :
    trace -> string -> list (string * string) -> pyval -> result response
}.

(** ** Configuration (lines 21-27) *)

(** [os.getenv(key, default)]. *)
Definition getenv (env : string -> option string) (key default : string)
  : string :=
  match env key with
  | Some v => v
  | None => default
  end.

Definition LAVALINK_URL (env : string -> option string) : string :=
  let url := getenv env "LAVALINK_URL" "http://localhost:9296" in
  if negb (String.eqb url "")
     && negb (PyStr.startswith "http://" url
              || PyStr.startswith "https://" url)
  then "http://" ++ url
  else url.

Definition LAVALINK_PASSWORD (env : string -> option string) : string :=
  getenv env "LAVALINK_PASSWORD" "glace".

Definition USE_DOCKER (env : string -> option string) : bool :=
  String.eqb (PyStr.lower (getenv env "USE_DOCKER" "true")) "true".

(** ** Effectful code: a trace-passing monad with exceptions *)

Definition M (A : Type) : Type := trace -> trace * result A.

Definition ret {A : Type} (a : A) : M A := fun tr => (tr, Ok a).

Definition bind {A B : Type} (m : M A) (k : A -> M B) : M B :=
  fun tr =>
    match m tr with
    | (tr', Ok a) => k a tr'
    | (tr', Raise e) => (tr', Raise e)
    end.

(** [try: body  except Exception as e: handler]. *)
Definition try_except {A : Type} (body : M A) (handler : exn -> M A) : M A :=
  fun tr =>
    match body tr with
    | (tr', Raise e) => handler e tr'
    | r => r
    end.

(** An outside call: recorded, and answered from the history before it. *)
Definition call {A : Type} (ev : event) (answer : trace -> result A) : M A :=
  fun tr => ((tr ++ [ev])%list, answer tr).

Definition emit (ev : event) : M unit := call ev (fun _ => Ok tt).

Definition log (lvl : level) (msg : string) : M unit := emit (EvLog lvl msg).

(** A pure computation that may raise. *)
Definition lift {A : Type} (r : result A) : M A := fun tr => (tr, r).

Declare Scope monad_scope.
Delimit Scope monad_scope with monad.
Notation "x <- m ;; k" := (bind m (fun x => k))
  (at level 61, m at next level, right associativity) : monad_scope.
Notation "m ;;; k" := (bind m (fun _ => k))
  (at level 61, right associativity) : monad_scope.
Local Open Scope monad_scope.

(** The pair a strategy returns: [{"token": ..., "visitorData": ...}]. *)
Record creds : Type := Creds {
  token : pyval;
  visitorData : pyval
}.

(** [str(n)] for an integer. *)
Definition str_of_Z (n : Z) : string :=
  DecimalString.NilZero.string_of_int (Z.to_int n).

(** ** The [/refresh] route (lines 202-224)

    The route calls whatever the module binds to [generate_token_python],
    [generate_token_docker] and [update_lavalink_token]; it is written over
    arbitrary such callees, which may raise, and instantiated below. *)

(** What a Flask view returns: [jsonify(body), status]. *)
Definition http_response : Type := (pyval * Z)%type.

Definition body_refreshed : pyval :=
  PDict [("success", PBool true);
         ("message", PStr "Token refreshed successfully")].

Definition body_error (msg : string) : pyval :=
  PDict [("success", PBool false); ("error", PStr msg)].

Section Route.

Variable use_docker : bool.
Variable gen_python gen_docker : M (option creds).
Variable update : pyval -> pyval -> M bool.

(** [not tokens]: [None] is false, a dict with two keys is true. *)
Definition no_tokens (tokens : option creds) : bool :=
  match tokens with
  | Some _ => false
  | None => true
  end.

Definition refresh_route : M http_response :=
  try_except
    (log INFO "Token refresh requested via webhook" ;;;
     tokens <- gen_python ;;
     tokens <- (if no_tokens tokens && use_docker
                then log INFO "Python method failed, trying Docker..." ;;;
                     gen_docker
                else ret tokens) ;;
     match tokens with
     | None => ret (body_error "Failed to generate token", 500)
     | Some c =>
         updated <- update (token c) (visitorData c) ;;
         if (updated : bool)
         then ret (body_refreshed, 200)
         else ret (body_error "Failed to update Lavalink", 500)
     end)
    (fun e =>
       log ERROR ("Error in refresh endpoint: " ++ exn_str e) ;;;
       ret (body_error (exn_str e), 500)).

(** Lines 208-212 on their own: the generation step of the route. *)
Definition generation : M (option creds) :=
  tokens <- gen_python ;;
  if no_tokens tokens && use_docker
  then log INFO "Python method failed, trying Docker..." ;;; gen_docker
  else ret tokens.

End Route.

(** ** The strategies, the updater and the route of the module *)

Section Service.

Variable json_loads : string -> option pyval.
Variable w : world.

(** [os.path.exists]. *)
Definition os_path_exists (path : string) : M bool :=
  call (EvExists path) (fun tr => Ok (path_exists w tr path)).

(** [glob.glob]. *)
Definition glob (pattern : string) : M (list string) :=
  call (EvGlob pattern) (fun tr => Ok (glob_glob w tr pattern)).

(** [subprocess.Popen], output discarded. *)
Definition Popen (argv : list string) : M unit :=
  call (EvPopen argv) (fun tr => popen w tr argv).

(** [time.sleep]. *)
Definition sleep (seconds : Z) : M unit := emit (EvSleep seconds).

(** [subprocess.run(..., capture_output=True, text=True)]. *)
Definition run (argv : list string) (cwd : option string) (timeout : Z)
  (env_set : list (string * string)) : M completed :=
  call (EvRun argv cwd timeout env_set) (fun tr => subprocess_run w tr argv).

(** [requests.post(url, json=..., headers=..., timeout=...)]. *)
Definition post (url : string) (headers : list (string * string))
  (json : pyval) (timeout : Z) : M response :=
  call (EvPost url headers json timeout)
       (fun tr => requests_post w tr url headers json).

(** Lines 36-117. *)
Definition generate_token_python : M (option creds) :=
  try_except
    (log INFO "Generating new token using Python method..." ;;;
     main_exists <- os_path_exists "/app/generator/main.py" ;;
     let generator_path :=
       if (main_exists : bool) then "/app/generator/main.py"
       else "/app/generator/generate.py" in
     path_found <- os_path_exists generator_path ;;
     located <-
       (if (path_found : bool) then ret (Some generator_path)
        else
          py_files <- glob "/app/generator/*.py" ;;
          match py_files with
          | first :: _ => ret (Some first)
          | [] => log ERROR "Generator script not found" ;;; ret None
          end) ;;
     match located with
     | None => ret None
     | Some generator_path =>
         Popen ["Xvfb"; ":99"; "-screen"; "0"; "1024x768x24"] ;;;
         sleep 1 ;;;
         result <- run ["python3"; generator_path] (Some "/app/generator")
                       120 [("DISPLAY", ":99"); ("HEADLESS", "true")] ;;
         let output := stdout result ++ stderr result in
         parsed <- lift (parse_python json_loads output) ;;
         let '(token, visitor_data) := parsed in
         if truthy token && truthy visitor_data
         then log INFO "Successfully generated new token using Python" ;;;
              ret (Some (Creds token visitor_data))
         else log ERROR ("Failed to parse token from output. Output: "
                         ++ PyStr.slice output 0 500) ;;;
              ret None
     end)
    (fun e =>
       match e with
       | TimeoutExpired _ =>
           log ERROR "Token generation timed out" ;;; ret None
       | _ =>
           log ERROR ("Error generating token with Python: " ++ exn_str e) ;;;
           ret None
       end).

(** Lines 120-172. *)
Definition generate_token_docker : M (option creds) :=
  try_except
    (log INFO "Generating new token using Docker..." ;;;
     result <- run ["docker"; "run"; "--rm";
                    "iv-org/youtube-trusted-session-generator"]
                   None 60 [] ;;
     if negb (returncode result =? 0)
     then log ERROR ("Docker command failed: " ++ stderr result) ;;; ret None
     else
       let output := stdout result in
       parsed <- lift (parse_docker json_loads output) ;;
       let '(token, visitor_data) := parsed in
       if truthy token && truthy visitor_data
       then log INFO "Successfully generated new token" ;;;
            ret (Some (Creds token visitor_data))
       else log ERROR "Failed to parse token from output" ;;; ret None)
    (fun e =>
       match e with
       | FileNotFoundError _ =>
           log INFO "Docker not available, trying Python method..." ;;;
           generate_token_python
       | _ =>
           log ERROR ("Error generating token: " ++ exn_str e) ;;;
           generate_token_python
       end).

(** Lines 175-199. *)
Definition update_lavalink_token (token visitor_data : pyval) : M bool :=
  try_except
    (let url := LAVALINK_URL (environ w) ++ "/youtube" in
     let headers := [("Content-Type", "application/json");
                     ("Authorization", LAVALINK_PASSWORD (environ w))] in
     let payload :=
       PDict [("poToken", token); ("visitorData", visitor_data)] in
     response <- post url headers payload 10 ;;
     if status_code response =? 204
     then log INFO "✅ Successfully updated Lavalink token!" ;;; ret true
     else log ERROR ("Failed to update token. Status: "
                     ++ str_of_Z (status_code response)) ;;;
          ret false)
    (fun e =>
       log ERROR ("Error updating Lavalink token: " ++ exn_str e) ;;;
       ret false).

(** Lines 202-224, with the module's own callees. *)
Definition refresh_token : M http_response :=
  refresh_route (USE_DOCKER (environ w)) generate_token_python
    generate_token_docker update_lavalink_token.

End Service.

(** ** An executable JSON decoder

    [json_decode] decodes the fragment of JSON whose numbers are integers
    and whose strings use no [\u] escape, the way [json.loads] does: white
    space around the value, [null], [true], [false], integers, strings with
    the two-character escapes, arrays, objects whose later duplicate keys
    win.  Outside the fragment (a fraction, an exponent, [NaN],
    [Infinity], [\u]) it answers [None].  It is what the concrete runs of
    the parser below use for [json_loads]. *)

Module Json.

Inductive parse (A : Type) : Type :=
| Parsed (a : A) (rest : string)
| Invalid
| OutOfFuel.

Arguments Parsed {A} a rest.
Arguments Invalid {A}.
Arguments OutOfFuel {A}.

(** The white space of JSON: space, tab, line feed, carriage return. *)
Definition is_ws (a : ascii) : bool :=
  let n := nat_of_ascii a in
  (n =? 32)%nat || (n =? 9)%nat || (n =? 10)%nat || (n =? 13)%nat.

Fixpoint skip_ws (s : string) : string :=
  match s with
  | EmptyString => EmptyString
  | String a r => if is_ws a then skip_ws r else s
  end.

(** The character a two-character escape stands for. *)
Definition unescape (a : ascii) : option ascii :=
  let n := nat_of_ascii a in
  if (n =? 34)%nat then Some a
  else if (n =? 92)%nat then Some a
  else if (n =? 47)%nat then Some a
  else if (n =? 98)%nat then Some (ascii_of_nat 8)
  else if (n =? 102)%nat then Some (ascii_of_nat 12)
  else if (n =? 110)%nat then Some (ascii_of_nat 10)
  else if (n =? 114)%nat then Some (ascii_of_nat 13)
  else if (n =? 116)%nat then Some (ascii_of_nat 9)
  else None.

(** The rest of a string literal, after its opening quote: its characters
    and the text after the closing quote.  A raw control character is an
    error, as in the strict mode of [json.loads]. *)
Fixpoint scan_string (s : string) : option (string * string) :=
  match s with
  | EmptyString => None
  | String a r =>
      if (nat_of_ascii a =? 34)%nat then Some (EmptyString, r)
      else if (nat_of_ascii a =? 92)%nat then
        match r with
        | String e r' =>
            match unescape e, scan_string r' with
            | Some c, Some (t, rest) => Some (String c t, rest)
            | _, _ => None
            end
        | EmptyString => None
        end
      else if (nat_of_ascii a <? 32)%nat then None
      else
        match scan_string r with
        | Some (t, rest) => Some (String a t, rest)
        | None => None
        end
  end.

Definition is_digit (a : ascii) : bool :=
  let n := nat_of_ascii a in (48 <=? n)%nat && (n <=? 57)%nat.

(** The digits at the head of [s], read after the value [acc]. *)
Fixpoint scan_digits (acc : Z) (s : string) : Z * string :=
  match s with
  | EmptyString => (acc, s)
  | String a r =>
      if is_digit a
      then scan_digits (10 * acc + Z.of_nat (nat_of_ascii a - 48)) r
      else (acc, s)
  end.

(** A fraction or an exponent follows: the number is a float. *)
Definition float_follows (s : string) : bool :=
  match s with
  | String a _ =>
      let n := nat_of_ascii a in
      (n =? 46)%nat || (n =? 101)%nat || (n =? 69)%nat
  | EmptyString => false
  end.

(** An integer without sign: [0], or a nonzero digit and more digits. *)
Definition scan_nat (s : string) : option (Z * string) :=
  match s with
  | String a r =>
      if (nat_of_ascii a =? 48)%nat then
        if float_follows r then None else Some (0, r)
      else if is_digit a then
        let '(n, rest) := scan_digits 0 s in
        if float_follows rest then None else Some (n, rest)
      else None
  | EmptyString => None
  end.

Definition scan_int (s : string) : option (Z * string) :=
  match s with
  | String a r =>
      if (nat_of_ascii a =? 45)%nat then
        match scan_nat r with
        | Some (n, rest) => Some (- n, rest)
        | None => None
        end
      else scan_nat s
  | EmptyString => None
  end.

(** [s] without the prefix [p], when it has it. *)
Fixpoint drop_prefix (p s : string) : option string :=
  match p, s with
  | EmptyString, _ => Some s
  | String a p', String b s' =>
      if Ascii.eqb a b then drop_prefix p' s' else None
  | String _ _, EmptyString => None
  end.

(** One value at the head of [s]; the members of an object after its first
    brace or a comma; the elements of an array likewise. *)
Fixpoint value (fuel : nat) (s : string) : parse pyval :=
  match fuel with
  | O => OutOfFuel
  | S n =>
      match s with
      | EmptyString => Invalid
      | String a r =>
          let c := nat_of_ascii a in
          if (c =? 123)%nat then
            match skip_ws r with
            | String b r' =>
                if (nat_of_ascii b =? 125)%nat then Parsed (PDict []) r'
                else members n [] (String b r')
            | EmptyString => Invalid
            end
          else if (c =? 91)%nat then
            match skip_ws r with
            | String b r' =>
                if (nat_of_ascii b =? 93)%nat then Parsed (PList []) r'
                else elements n [] (String b r')
            | EmptyString => Invalid
            end
          else if (c =? 34)%nat then
            match scan_string r with
            | Some (t, rest) => Parsed (PStr t) rest
            | None => Invalid
            end
          else
            match drop_prefix "null" s, drop_prefix "true" s,
                  drop_prefix "false" s with
            | Some rest, _, _ => Parsed PNone rest
            | _, Some rest, _ => Parsed (PBool true) rest
            | _, _, Some rest => Parsed (PBool false) rest
            | None, None, None =>
                match scan_int s with
                | Some (z, rest) => Parsed (PInt z) rest
                | None => Invalid
                end
            end
      end
  end

with members (fuel : nat) (acc : list (string * pyval)) (s : string)
  : parse pyval :=
  match fuel with
  | O => OutOfFuel
  | S n =>
      match s with
      | String a r =>
          if (nat_of_ascii a =? 34)%nat then
            match scan_string r with
            | Some (key, rest) =>
                match skip_ws rest with
                | String b rest' =>
                    if (nat_of_ascii b =? 58)%nat then
                      match value n (skip_ws rest') with
                      | Parsed v rest'' =>
                          let acc' := dict_set acc key v in
                          match skip_ws rest'' with
                          | String d more =>
                              if (nat_of_ascii d =? 125)%nat
                              then Parsed (PDict acc') more
                              else if (nat_of_ascii d =? 44)%nat
                              then members n acc' (skip_ws more)
                              else Invalid
                          | EmptyString => Invalid
                          end
                      | Invalid => Invalid
                      | OutOfFuel => OutOfFuel
                      end
                    else Invalid
                | EmptyString => Invalid
                end
            | None => Invalid
            end
          else Invalid
      | EmptyString => Invalid
      end
  end

with elements (fuel : nat) (acc : list pyval) (s : string) : parse pyval :=
  match fuel with
  | O => OutOfFuel
  | S n =>
      match value n s with
      | Parsed v rest =>
          match skip_ws rest with
          | String d more =>
              if (nat_of_ascii d =? 93)%nat
              then Parsed (PList (acc ++ [v])) more
              else if (nat_of_ascii d =? 44)%nat
              then elements n (acc ++ [v]) (skip_ws more)
              else Invalid
          | EmptyString => Invalid
          end
      | Invalid => Invalid
      | OutOfFuel => OutOfFuel
      end
  end.

(** The whole text is one value, white space around it allowed.  Two units
    of fuel per character are enough: see [decode_has_fuel]. *)
Definition decode (s : string) : parse pyval :=
  match value (S (2 * String.length s)) (skip_ws s) with
  | Parsed v rest =>
      match skip_ws rest with
      | EmptyString => Parsed v EmptyString
      | String _ _ => Invalid
      end
  | Invalid => Invalid
  | OutOfFuel => OutOfFuel
  end.

(** [p] is not a lack of fuel, and what it leaves is shorter than [s]. *)
Definition shrinks (s : string) (p : parse pyval) : Prop :=
  match p with
  | Parsed _ rest => (String.length rest < String.length s)%nat
  | Invalid => True
  | OutOfFuel => False
  end.

End Json.

Definition json_decode (s : string) : option pyval :=
  match Json.decode s with
  | Json.Parsed v _ => Some v
  | _ => None
  end.

(** Concrete outputs are written with a backquote where the text has a
    double quote. *)
Fixpoint q (s : string) : string :=
  match s with
  | EmptyString => EmptyString
  | String a r =>
      String (if (nat_of_ascii a =? 96)%nat then dquote else a) (q r)
  end.

(** ** The parser of a strategy as a whole *)

(** Lines 105-110 and 160-165 without their log lines: the pair when both
    fields are true, [None] otherwise. *)
Definition pair_or_none (st : fields) : option creds :=
  let '(token, visitor_data) := st in
  if truthy token && truthy visitor_data
  then Some (Creds token visitor_data)
  else None.

(** The parser of a strategy, from the raw output to what the strategy
    returns for it. *)
Definition output_parser (parse : string -> result fields) (output : string)
  : result (option creds) :=
  match parse output with
  | Ok st => Ok (pair_or_none st)
  | Raise e => Raise e
  end.

(** The text from the first opening brace to the last closing brace. *)
Definition brace_substring (output : string) : string :=
  PyStr.slice output (PyStr.find "{" output) (PyStr.rfind "}" output + 1).

(** ** Vocabulary of the statements *)

(** [m] never raises, and what it returns satisfies [Q]. *)
Definition returns {A : Type} (Q : A -> Prop) (m : M A) : Prop :=
  forall tr, exists tr' a, m tr = (tr', Ok a) /\ Q a.

(** Whatever [m] returns, when it does not raise, satisfies [Q]. *)
Definition if_returns {A : Type} (Q : A -> Prop) (m : M A) : Prop :=
  forall tr tr' a, m tr = (tr', Ok a) -> Q a.

(** [m] keeps the history and adds to it only events in [P]. *)
Definition only_emits {A : Type} (P : event -> Prop) (m : M A) : Prop :=
  forall tr, exists added, fst (m tr) = (tr ++ added)%list /\ Forall P added.

(** An outcome a strategy may hand back: [None], or a pair with both
    fields true in the sense of [if token and visitor_data]. *)
Definition outcome_ok (o : option creds) : Prop :=
  match o with
  | None => True
  | Some c => truthy (token c) = true /\ truthy (visitorData c) = true
  end.

(** The command line of the container strategy. *)
Definition docker_argv : list string :=
  ["docker"; "run"; "--rm"; "iv-org/youtube-trusted-session-generator"].

(** The events by which the container strategy shows: its opening log line
    and the launch of the [docker] executable. *)
Definition docker_event (ev : event) : bool :=
  match ev with
  | EvLog _ msg => String.eqb msg "Generating new token using Docker..."
  | EvRun (prog :: _) _ _ _ => String.eqb prog "docker"
  | _ => false
  end.

(** [ev] is no event of the container strategy. *)
Definition not_docker (ev : event) : Prop := docker_event ev = false.

(** No constraint on an event. *)
Definition any_event (ev : event) : Prop := True.

(** The log line of the handlers of [generate_token_docker]. *)
Definition docker_fault_log (e : exn) : event :=
  match e with
  | FileNotFoundError _ =>
      EvLog INFO "Docker not available, trying Python method..."
  | _ => EvLog ERROR ("Error generating token: " ++ exn_str e)
  end.

(** What the handler of the route answers to a fault raised at [tr]. *)
Definition fault_response (e : exn) (tr : trace)
  : trace * result http_response :=
  ((tr ++ [EvLog ERROR ("Error in refresh endpoint: " ++ exn_str e)])%list,
   Ok (body_error (exn_str e), 500)).

(** [url.startswith((http://, https://))]. *)
Definition has_scheme (url : string) : bool :=
  PyStr.startswith "http://" url || PyStr.startswith "https://" url.

(** ** Concrete worlds and outputs *)

(** An environment given by its variables. *)
Fixpoint env_of (vars : list (string * string)) (key : string)
  : option string :=
  match vars with
  | [] => None
  | (k, v) :: rest => if String.eqb k key then Some v else env_of rest key
  end.

(** A world whose answers do not change with the history: the files that
    exist under [/app/generator], what the generator and the container
    do, and what Lavalink answers.  Xvfb always starts. *)
Definition steady_world (vars : list (string * string))
  (files : list string) (generator container : result completed)
  (lavalink : result response) : world :=
  {| environ := env_of vars;
     path_exists := fun _ path => existsb (String.eqb path) files;
     glob_glob := fun _ _ => files;
     popen := fun _ _ => Ok tt;
     subprocess_run := fun _ argv =>
       match argv with
       | prog :: _ => if String.eqb prog "docker" then container
                      else generator
       | [] => generator
       end;
     requests_post := fun _ _ _ _ => lavalink |}.

(** A subprocess that ran to its end. *)
Definition exited (code : Z) (out err : string) : result completed :=
  Ok (Completed code out err).

(** The answer of Lavalink to an accepted update. *)
Definition no_content : result response := Ok (Response 204 "").

(** A callee that raises. *)
Definition raising {A : Type} (msg : string) : M A :=
  fun tr => (tr, Raise (OtherException msg)).

(** What a working generator prints. *)
Definition good_output : string :=
  q "{`token`:`tok-1`,`visitorData`:`vis-1`}".

(** An output with unbalanced braces around text that is not JSON, and
    only a visitor line after it. *)
Definition output_unbalanced : string :=
  "{ starting generator" ++ String newline "} visitorData: xyz987".

(** The generator is installed and prints a JSON pair; Lavalink accepts. *)
Definition world_good : world :=
  steady_world [] ["/app/generator/main.py"] (exited 0 good_output "")
    (exited 0 good_output "") no_content.

(** No generator script, and the container fallback switched off. *)
Definition world_no_generator_no_docker : world :=
  steady_world [("USE_DOCKER", "false")] [] (exited 0 good_output "")
    (exited 0 good_output "") no_content.

(** The generator works but Lavalink answers 500. *)
Definition world_lavalink_down : world :=
  steady_world [] ["/app/generator/main.py"] (exited 0 good_output "")
    (exited 0 good_output "") (Ok (Response 500 "error")).

(** No [docker] executable. *)
Definition world_docker_missing : world :=
  steady_world [] ["/app/generator/main.py"] (exited 0 good_output "")
    (Raise (FileNotFoundError "[Errno 2] No such file or directory"))
    no_content.

(** The docker run times out. *)
Definition world_docker_timeout : world :=
  steady_world [] ["/app/generator/main.py"] (exited 0 good_output "")
    (Raise (TimeoutExpired "timed out after 60 seconds")) no_content.

(** The docker run ends with status 125. *)
Definition world_docker_fails : world :=
  steady_world [] ["/app/generator/main.py"] (exited 0 good_output "")
    (exited 125 "" "docker: image not found") no_content.

(** ** The other routes (lines 227-243) *)

(** [GET /health]. *)
Definition health : M http_response :=
  ret (PDict [("status", PStr "healthy")], 200).

(** [GET /]. *)
Definition index (w : world) : M http_response :=
  ret (PDict [("service", PStr "Lavalink Token Refresh Webhook");
              ("endpoints",
               PDict [("/refresh", PStr "POST or GET - Refresh YouTube token");
                      ("/health", PStr "GET - Health check")]);
              ("lavalink_url", PStr (LAVALINK_URL (environ w)))],
       200).

(** The generation step of [refresh_token] (lines 208-212), with the
    module's own strategies. *)
Definition refresh_generation (json_loads : string -> option pyval)
  (w : world) : M (option creds) :=
  generation (USE_DOCKER (environ w)) (generate_token_python json_loads w)
    (generate_token_docker json_loads w).

(** ** More vocabulary *)

(** [ev] is an HTTP request. *)
Definition is_post (ev : event) : bool :=
  match ev with
  | EvPost _ _ _ _ => true
  | _ => false
  end.

(** [ev] runs a subprocess to its end. *)
Definition is_run (ev : event) : bool :=
  match ev with
  | EvRun _ _ _ _ => true
  | _ => false
  end.

(** [ev] starts a process. *)
Definition is_launch (ev : event) : bool :=
  match ev with
  | EvPopen _ | EvRun _ _ _ _ => true
  | _ => false
  end.

(** The only processes the local-process strategy starts, and the only
    way it starts them: Xvfb on display 99, and [python3] on one script,
    in [/app/generator], for at most 120 seconds, with [DISPLAY] and
    [HEADLESS] set.  It sends no HTTP request. *)
Definition python_event (ev : event) : Prop :=
  match ev with
  | EvPopen argv => argv = ["Xvfb"; ":99"; "-screen"; "0"; "1024x768x24"]
  | EvRun argv cwd timeout env_set =>
      (exists path, argv = ["python3"; path])
      /\ cwd = Some "/app/generator"
      /\ timeout = 120
      /\ env_set = [("DISPLAY", ":99"); ("HEADLESS", "true")]
  | EvPost _ _ _ _ => False
  | _ => True
  end.

(** The events of the container strategy: those of the local-process
    strategy, and the one docker run. *)
Definition docker_strategy_event (ev : event) : Prop :=
  python_event ev \/ ev = EvRun docker_argv None 60 [].

(** The request of the updater for a pair: where it goes, its headers, its
    JSON body, and the event it makes. *)
Definition push_url (w : world) : string :=
  LAVALINK_URL (environ w) ++ "/youtube".

Definition push_headers (w : world) : list (string * string) :=
  [("Content-Type", "application/json");
   ("Authorization", LAVALINK_PASSWORD (environ w))].

Definition push_payload (tok vis : pyval) : pyval :=
  PDict [("poToken", tok); ("visitorData", vis)].

Definition push_event (w : world) (tok vis : pyval) : event :=
  EvPost (push_url w) (push_headers w) (push_payload tok vis) 10.

(** [ev] is no HTTP request. *)
Definition not_post (ev : event) : Prop := is_post ev = false.

(** The three events by which the local-process strategy runs the script
    at [path]: Xvfb is started, one second passes, the script is run. *)
Definition generator_launch (path : string) : list event :=
  [EvPopen ["Xvfb"; ":99"; "-screen"; "0"; "1024x768x24"];
   EvSleep 1;
   EvRun ["python3"; path] (Some "/app/generator") 120
     [("DISPLAY", ":99"); ("HEADLESS", "true")]].


(** The world [w] with every finished subprocess given the status [code]. *)
Definition with_returncode (code : Z) (w : world) : world :=
  {| environ := environ w;
     path_exists := path_exists w;
     glob_glob := glob_glob w;
     popen := popen w;
     subprocess_run := fun tr argv =>
       match subprocess_run w tr argv with
       | Ok res => Ok (Completed code (stdout res) (stderr res))
       | Raise e => Raise e
       end;
     requests_post := requests_post w |}.

(** The world [w] without an Xvfb executable. *)
Definition without_xvfb (w : world) : world :=
  {| environ := environ w;
     path_exists := path_exists w;
     glob_glob := glob_glob w;
     popen := fun _ _ =>
       Raise (FileNotFoundError "[Errno 2] No such file or directory");
     subprocess_run := subprocess_run w;
     requests_post := requests_post w |}.

(** Neither a generator script nor a [docker] executable. *)
Definition world_nothing_installed : world :=
  steady_world [] [] (exited 0 good_output "")
    (Raise (FileNotFoundError "[Errno 2] No such file or directory"))
    no_content.

(** A host with only a script of another name: the glob decides. *)
Definition world_other_script : world :=
  steady_world [] ["/app/generator/potoken.py"] (exited 0 good_output "")
    (exited 0 good_output "") no_content.

(** * Facts about the string operations *)

Module PyStrFacts.
Import PyStr.

Lemma len_nonneg (s : string) : 0 <= len s.
Proof. unfold len. lia. Qed.

Lemma len_cons (a : ascii) (s : string) : len (String a s) = len s + 1.
Proof. unfold len. simpl String.length. lia. Qed.

Lemma len_app (s t : string) : len (s ++ t) = len s + len t.
Proof.
  induction s as [|a s IH]; cbn [append].
  - unfold len. simpl. lia.
  - rewrite !len_cons, IH. lia.
Qed.

Lemma app_assoc (s t u : string) : ((s ++ t) ++ u = s ++ (t ++ u))%string.
Proof. induction s as [|a s IH]; simpl; [reflexivity | now rewrite IH]. Qed.

(** A character that does not occur is not found. *)
Lemma find_absent (c : ascii) (s : string) :
  has_char c s = false -> find c s = -1.
Proof.
  induction s as [|a s IH]; simpl; intros H; [reflexivity|].
  apply orb_false_iff in H as [Hac Hs].
  rewrite Hac, (IH Hs). reflexivity.
Qed.

Lemma rfind_absent (c : ascii) (s : string) :
  has_char c s = false -> rfind c s = -1.
Proof.
  induction s as [|a s IH]; simpl; intros H; [reflexivity|].
  apply orb_false_iff in H as [Hac Hs].
  rewrite Hac, (IH Hs). reflexivity.
Qed.

(** The first occurrence, after a prefix without the character. *)
Lemma find_after_prefix (c : ascii) (pre rest : string) :
  has_char c pre = false -> find c (pre ++ String c rest) = len pre.
Proof.
  induction pre as [|a pre IH]; simpl; intros H.
  - now rewrite Ascii.eqb_refl.
  - apply orb_false_iff in H as [Hac Hpre].
    rewrite Hac, (IH Hpre), len_cons.
    pose proof (len_nonneg pre).
    destruct (len pre <? 0) eqn:E; [apply Z.ltb_lt in E; lia | reflexivity].
Qed.

(** The last occurrence, before a suffix without the character. *)
Lemma rfind_before_suffix (c : ascii) (x post : string) :
  has_char c post = false -> rfind c (x ++ String c post) = len x.
Proof.
  intros H. induction x as [|a x IH]; simpl.
  - rewrite (rfind_absent _ _ H). simpl. now rewrite Ascii.eqb_refl.
  - rewrite IH, len_cons.
    pose proof (len_nonneg x).
    destruct (0 <=? len x) eqn:E; [reflexivity | apply Z.leb_gt in E; lia].
Qed.

Lemma substring_prefix (s t : string) :
  String.substring 0 (String.length s) (s ++ t) = s.
Proof. induction s as [|a s IH]; simpl; [now destruct t | now rewrite IH]. Qed.

Lemma substring_skip (pre s : string) (n : nat) :
  String.substring (String.length pre) n (pre ++ s) = String.substring 0 n s.
Proof. induction pre as [|a pre IH]; simpl; [reflexivity | exact IH]. Qed.

(** Slicing a middle part out by its bounds gives it back. *)
Lemma slice_middle (pre mid post : string) :
  slice (pre ++ mid ++ post) (len pre) (len pre + len mid) = mid.
Proof.
  unfold slice, clamp. rewrite !len_app.
  pose proof (len_nonneg pre). pose proof (len_nonneg mid).
  pose proof (len_nonneg post).
  destruct (len pre <? 0) eqn:E1; [apply Z.ltb_lt in E1; lia|].
  destruct (len pre + len mid <? 0) eqn:E2; [apply Z.ltb_lt in E2; lia|].
  rewrite !Z.min_l by lia.
  replace (len pre + len mid - len pre) with (len mid) by lia.
  unfold len. rewrite !Nat2Z.id.
  rewrite substring_skip. apply substring_prefix.
Qed.

(** Where a character occurs, there is a text after its first occurrence:
    the index [1] of [split(c, 1)] exists. *)
Lemma after_first_defined (c : ascii) (s : string) :
  has_char c s = true -> exists rest, after_first c s = Some rest.
Proof.
  induction s as [|a s IH]; simpl; intros H; [discriminate|].
  destruct (Ascii.eqb a c); [now eexists | now apply IH].
Qed.

Lemma startswith_app (p s : string) : startswith p (p ++ s) = true.
Proof.
  induction p as [|a p IH]; simpl; [reflexivity|].
  now rewrite Ascii.eqb_refl, IH.
Qed.

End PyStrFacts.

(** * Facts about the decoder *)

Module JsonFacts.
Import Json.

Lemma skip_ws_length (s : string) :
  (String.length (skip_ws s) <= String.length s)%nat.
Proof.
  induction s as [|a s IH]; simpl; [lia|].
  destruct (is_ws a); simpl; lia.
Qed.

Lemma scan_string_length_aux (n : nat) :
  forall s t rest, (String.length s < n)%nat ->
  scan_string s = Some (t, rest) ->
  (String.length rest < String.length s)%nat.
Proof.
  induction n as [|n IH]; intros s t rest Hn; [lia|].
  destruct s as [|a r]; simpl; [discriminate|]. simpl in Hn.
  destruct (nat_of_ascii a =? 34)%nat.
  { intros H. inversion H. subst. lia. }
  destruct (nat_of_ascii a =? 92)%nat.
  { destruct r as [|e r']; [discriminate|]. simpl in Hn.
    destruct (unescape e); [|discriminate].
    destruct (scan_string r') as [[t' rest']|] eqn:E; [|discriminate].
    intros H. inversion H. subst.
    assert (String.length rest < String.length r')%nat
      by (apply (IH r' t'); [lia | exact E]).
    simpl. lia. }
  destruct (nat_of_ascii a <? 32)%nat; [discriminate|].
  destruct (scan_string r) as [[t' rest']|] eqn:E; [|discriminate].
  intros H. inversion H. subst.
  assert (String.length rest < String.length r)%nat
    by (apply (IH r t'); [lia | exact E]).
  lia.
Qed.

Lemma scan_string_length (s t rest : string) :
  scan_string s = Some (t, rest) ->
  (String.length rest < String.length s)%nat.
Proof. apply (scan_string_length_aux (S (String.length s))). lia. Qed.

Lemma scan_digits_length (s : string) (acc : Z) :
  (String.length (snd (scan_digits acc s)) <= String.length s)%nat.
Proof.
  revert acc. induction s as [|a s IH]; intros acc; [simpl; lia|].
  cbn [scan_digits]. destruct (is_digit a); [|simpl; lia].
  apply Nat.le_trans with (String.length s); [apply IH | simpl; lia].
Qed.

Lemma scan_nat_length (s rest : string) (z : Z) :
  scan_nat s = Some (z, rest) -> (String.length rest < String.length s)%nat.
Proof.
  destruct s as [|a r]; [discriminate|]. unfold scan_nat.
  destruct (nat_of_ascii a =? 48)%nat.
  { destruct (float_follows r); [discriminate|].
    intros H. inversion H. subst. simpl. lia. }
  destruct (is_digit a) eqn:D; [|discriminate].
  pose proof (scan_digits_length r
                (10 * 0 + Z.of_nat (nat_of_ascii a - 48))%Z) as L.
  cbn [scan_digits]. rewrite D.
  destruct (scan_digits _ r) as [n rest'] eqn:E. cbn [snd] in L.
  destruct (float_follows rest'); [discriminate|].
  intros H. inversion H. subst. simpl. lia.
Qed.

Lemma scan_int_length (s rest : string) (z : Z) :
  scan_int s = Some (z, rest) -> (String.length rest < String.length s)%nat.
Proof.
  destruct s as [|a r]; [discriminate|]. unfold scan_int.
  destruct (nat_of_ascii a =? 45)%nat.
  - destruct (scan_nat r) as [[n rest']|] eqn:E; [|discriminate].
    intros H. inversion H. subst. apply scan_nat_length in E. simpl. lia.
  - apply scan_nat_length.
Qed.

Lemma drop_prefix_length (p s rest : string) :
  drop_prefix p s = Some rest ->
  (String.length rest + String.length p = String.length s)%nat.
Proof.
  revert s. induction p as [|a p IH]; intros s; simpl.
  - intros H. inversion H. lia.
  - destruct s as [|b s]; [discriminate|].
    destruct (Ascii.eqb a b); [|discriminate].
    intros H. apply IH in H. simpl. lia.
Qed.

Lemma enough_fuel (n : nat) :
  (forall s, (2 * String.length s < n)%nat -> shrinks s (value n s))
  /\ (forall acc s, (2 * String.length s < n)%nat ->
      shrinks s (members n acc s))
  /\ (forall acc s, (2 * String.length s + 1 < n)%nat ->
      shrinks s (elements n acc s)).
Proof.
  induction n as [|n (IHv & IHm & IHe)].
  { repeat split; intros; lia. }
  split; [|split].
  - intros s Hn. destruct s as [|a r]; [exact I|].
    cbn [value]. simpl in Hn.
    destruct (nat_of_ascii a =? 123)%nat.
    { pose proof (skip_ws_length r) as L.
      destruct (skip_ws r) as [|b r'] eqn:E; [exact I|]. simpl in L.
      destruct (nat_of_ascii b =? 125)%nat; [simpl; lia|].
      assert (H : shrinks (String b r') (members n [] (String b r')))
        by (apply IHm; simpl; lia).
      destruct (members n [] (String b r')); simpl in *; try exact H. lia. }
    destruct (nat_of_ascii a =? 91)%nat.
    { pose proof (skip_ws_length r) as L.
      destruct (skip_ws r) as [|b r'] eqn:E; [exact I|]. simpl in L.
      destruct (nat_of_ascii b =? 93)%nat; [simpl; lia|].
      assert (H : shrinks (String b r') (elements n [] (String b r')))
        by (apply IHe; simpl; lia).
      destruct (elements n [] (String b r')); simpl in *; try exact H. lia. }
    destruct (nat_of_ascii a =? 34)%nat.
    { destruct (scan_string r) as [[t rest]|] eqn:E; [|exact I].
      apply scan_string_length in E. simpl. lia. }
    destruct (drop_prefix "null" (String a r)) as [rest|] eqn:E1.
    { apply drop_prefix_length in E1. simpl in *. lia. }
    destruct (drop_prefix "true" (String a r)) as [rest|] eqn:E2.
    { apply drop_prefix_length in E2. simpl in *. lia. }
    destruct (drop_prefix "false" (String a r)) as [rest|] eqn:E3.
    { apply drop_prefix_length in E3. simpl in *. lia. }
    destruct (scan_int (String a r)) as [[z rest]|] eqn:E4; [|exact I].
    apply scan_int_length in E4. simpl in *. lia.
  - intros acc s Hn. destruct s as [|a r]; [exact I|].
    cbn [members]. simpl in Hn.
    destruct (nat_of_ascii a =? 34)%nat; [|exact I].
    destruct (scan_string r) as [[key rest]|] eqn:E; [|exact I].
    apply scan_string_length in E.
    pose proof (skip_ws_length rest) as L1.
    destruct (skip_ws rest) as [|b rest'] eqn:E1; [exact I|]. simpl in L1.
    destruct (nat_of_ascii b =? 58)%nat; [|exact I].
    pose proof (skip_ws_length rest') as L2.
    assert (H : shrinks (skip_ws rest') (value n (skip_ws rest')))
      by (apply IHv; lia).
    destruct (value n (skip_ws rest')) as [v rest''| |]; simpl in H;
      [|exact I|exact H].
    pose proof (skip_ws_length rest'') as L3.
    destruct (skip_ws rest'') as [|d more] eqn:E3; [exact I|]. simpl in L3.
    destruct (nat_of_ascii d =? 125)%nat; [simpl; lia|].
    destruct (nat_of_ascii d =? 44)%nat; [|exact I].
    pose proof (skip_ws_length more) as L4.
    assert (H' : shrinks (skip_ws more)
                   (members n (dict_set acc key v) (skip_ws more)))
      by (apply IHm; lia).
    destruct (members n (dict_set acc key v) (skip_ws more));
      simpl in *; try exact H'. lia.
  - intros acc s Hn. cbn [elements].
    assert (H : shrinks s (value n s)) by (apply IHv; lia).
    destruct (value n s) as [v rest| |]; simpl in H; [|exact I|exact H].
    pose proof (skip_ws_length rest) as L1.
    destruct (skip_ws rest) as [|d more] eqn:E1; [exact I|]. simpl in L1.
    destruct (nat_of_ascii d =? 93)%nat; [simpl; lia|].
    destruct (nat_of_ascii d =? 44)%nat; [|exact I].
    pose proof (skip_ws_length more) as L2.
    assert (H' : shrinks (skip_ws more)
                   (elements n (acc ++ [v]) (skip_ws more)))
      by (apply IHe; lia).
    destruct (elements n (acc ++ [v]) (skip_ws more));
      simpl in *; try exact H'. lia.
Qed.

(** The decoder never runs out of fuel: [None] from [json_decode] is a
    syntax error (or a number or escape outside the fragment). *)
Lemma decode_has_fuel (s : string) : decode s <> OutOfFuel.
Proof.
  unfold decode.
  pose proof (skip_ws_length s) as L.
  pose proof (proj1 (enough_fuel (S (2 * String.length s))) (skip_ws s)) as H.
  destruct (value _ (skip_ws s)) as [v rest| |].
  - destruct (skip_ws rest); discriminate.
  - discriminate.
  - exfalso. apply H. lia.
Qed.

End JsonFacts.

(** * Facts about the parsers *)

Section ParserFacts.

Variable json_loads : string -> option pyval.

Import PyStr PyStrFacts.

(** Under the loop's own test for a colon the candidate value exists. *)
Lemma value_after_colon_ok (line : string) :
  has_char ":" line = true -> exists v, value_after_colon line = Ok v.
Proof.
  intros H. unfold value_after_colon.
  destruct (after_first_defined _ _ H) as [rest ->]. now eexists.
Qed.

Lemma split_more_than_one (c : ascii) (s : string) :
  has_char c s = true -> (1 <? Z.of_nat (List.length (split c s))) = true.
Proof.
  assert (Hne : forall t, (0 < List.length (split c t))%nat).
  { induction t as [|a t IH]; simpl; [lia|].
    destruct (Ascii.eqb a c); simpl; [lia|].
    destruct (split c t); simpl in *; lia. }
  induction s as [|a s IH]; simpl; intros H; [discriminate|].
  destruct (Ascii.eqb a c) eqn:E; simpl in *.
  - specialize (Hne s). apply Z.ltb_lt.
    change (List.length (EmptyString :: split c s))
      with (S (List.length (split c s))). lia.
  - specialize (IH H). destruct (split c s) as [|h t]; simpl in *; exact IH.
Qed.



Lemma scan_line_python_ok (st : fields) (line : string) :
  exists st', scan_line_python st line = Ok st'.
Proof.
  destruct st as [tok vis]. unfold scan_line_python.
  destruct (has_char ":" line) eqn:Hc.
  - destruct (value_after_colon_ok _ Hc) as [v ->].
    rewrite (split_more_than_one _ _ Hc), !andb_true_r.
    destruct (contains "token" (lower line)).
    + destruct (20 <? len v); now eexists.
    + destruct (_ || _); now eexists.
  - rewrite andb_false_r. simpl.
    destruct (_ || _); now eexists.
Qed.

Lemma scan_line_docker_ok (st : fields) (line : string) :
  exists st', scan_line_docker st line = Ok st'.
Proof.
  destruct st as [tok vis]. unfold scan_line_docker.
  destruct (has_char ":" line) eqn:Hc.
  - destruct (value_after_colon_ok _ Hc) as [v ->].
    rewrite !andb_true_r.
    destruct (contains "token" (lower line)); [now eexists|].
    destruct (_ && _); now eexists.
  - rewrite !andb_false_r. now eexists.
Qed.

Lemma scan_lines_ok (step : fields -> string -> result fields) :
  (forall st line, exists st', step st line = Ok st') ->
  forall lines st, exists st', scan_lines step st lines = Ok st'.
Proof.
  intros Hstep. induction lines as [|line rest IH]; intros st; simpl.
  - now eexists.
  - destruct (Hstep st line) as [st' ->]. apply IH.
Qed.

(** The JSON pass on a text that embeds an object between brace-free
    noise: the first brace to last brace substring is the object. *)
Lemma json_pass_embedded (pre body post : string)
  (data : list (string * pyval)) :
  has_char "{" pre = false ->
  has_char "}" post = false ->
  json_loads ("{" ++ body ++ "}") = Some (PDict data) ->
  json_pass json_loads (pre ++ ("{" ++ body ++ "}") ++ post)
  = (py_or (dict_get data "token") (dict_get data "poToken"),
     py_or (dict_get data "visitorData") (dict_get data "visitor_data")).
Proof.
  intros Hpre Hpost Hjson. unfold json_pass.
  set (J := ("{" ++ body ++ "}")%string) in *.
  assert (Hfind : find "{" (pre ++ J ++ post) = len pre).
  { subst J. cbn [append]. now apply find_after_prefix. }
  assert (Hrfind : rfind "}" (pre ++ J ++ post) = len pre + len J - 1).
  { replace (pre ++ J ++ post)%string
      with ((pre ++ "{" ++ body) ++ String "}" post)%string.
    - rewrite rfind_before_suffix by assumption.
      subst J. rewrite !len_app.
      change (len "}") with 1. lia.
    - subst J. repeat first [rewrite app_assoc | progress cbn [append]].
      reflexivity. }
  rewrite Hfind, Hrfind.
  replace (len pre + len J - 1 + 1) with (len pre + len J) by lia.
  assert (HJ : 2 <= len J).
  { subst J. rewrite !len_app. change (len "{") with 1.
    change (len "}") with 1. pose proof (len_nonneg body). lia. }
  pose proof (len_nonneg pre).
  destruct (0 <=? len pre) eqn:E1; [|apply Z.leb_gt in E1; lia].
  destruct (len pre <? len pre + len J) eqn:E2;
    [|apply Z.ltb_ge in E2; lia].
  cbn [andb]. now rewrite slice_middle, Hjson.
Qed.

(** The JSON pass on a text whose brace substring does not decode. *)
Lemma json_pass_undecodable (output : string) :
  json_loads (slice output (find "{" output) (rfind "}" output + 1)) = None ->
  json_pass json_loads output = (PNone, PNone).
Proof.
  intros H. unfold json_pass. rewrite H. now destruct (_ && _).
Qed.

End ParserFacts.

(** * Facts about effectful code *)

Section MonadFacts.

Context {A B : Type}.

Lemma returns_ret (Q : A -> Prop) (a : A) : Q a -> returns Q (ret a).
Proof. intros H tr. now exists tr, a. Qed.

Lemma if_returns_ret (Q : A -> Prop) (a : A) : Q a -> if_returns Q (ret a).
Proof. intros H tr tr' a' E. inversion E. now subst. Qed.

Lemma returns_if_returns (Q : A -> Prop) (m : M A) :
  returns Q m -> if_returns Q m.
Proof.
  intros H tr tr' a E. destruct (H tr) as (tr1 & a1 & E1 & Ha).
  rewrite E in E1. inversion E1. now subst.
Qed.

Lemma returns_try (Q : A -> Prop) (body : M A) (handler : exn -> M A) :
  if_returns Q body -> (forall e, returns Q (handler e)) ->
  returns Q (try_except body handler).
Proof.
  intros Hb Hh tr. unfold try_except.
  destruct (body tr) as [tr1 [a|e]] eqn:E.
  - exists tr1, a. split; [reflexivity | now apply (Hb tr tr1)].
  - apply Hh.
Qed.

Lemma only_emits_ret (P : event -> Prop) (a : A) : only_emits P (ret a).
Proof. intros tr. exists []. now rewrite app_nil_r. Qed.

Lemma only_emits_lift (P : event -> Prop) (r : result A) :
  only_emits P (lift r).
Proof. intros tr. exists []. now rewrite app_nil_r. Qed.

Lemma only_emits_call (P : event -> Prop) (ev : event)
  (answer : trace -> result A) : P ev -> only_emits P (call ev answer).
Proof. intros H tr. exists [ev]. split; [reflexivity | now constructor]. Qed.

Lemma only_emits_try (P : event -> Prop) (body : M A)
  (handler : exn -> M A) :
  only_emits P body -> (forall e, only_emits P (handler e)) ->
  only_emits P (try_except body handler).
Proof.
  intros Hb Hh tr. unfold try_except.
  destruct (Hb tr) as (added & E & HP).
  destruct (body tr) as [tr1 [a|e]]; simpl in E; subst tr1.
  - now exists added.
  - destruct (Hh e (tr ++ added)%list) as (added' & E' & HP').
    exists (added ++ added')%list. rewrite E', app_assoc.
    split; [reflexivity | now apply Forall_app].
Qed.

Lemma returns_bind (P : A -> Prop) (Q : B -> Prop) (m : M A)
  (k : A -> M B) :
  returns P m -> (forall a, returns Q (k a)) -> returns Q (bind m k).
Proof.
  intros Hm Hk tr. unfold bind.
  destruct (Hm tr) as (tr1 & a & -> & _). apply Hk.
Qed.

Lemma if_returns_bind (Q : B -> Prop) (m : M A) (k : A -> M B) :
  (forall a, if_returns Q (k a)) -> if_returns Q (bind m k).
Proof.
  intros Hk tr tr' b. unfold bind.
  destruct (m tr) as [tr1 [a|e]]; [apply Hk | discriminate].
Qed.

Lemma only_emits_bind (P : event -> Prop) (m : M A) (k : A -> M B) :
  only_emits P m -> (forall a, only_emits P (k a)) ->
  only_emits P (bind m k).
Proof.
  intros Hm Hk tr. unfold bind.
  destruct (Hm tr) as (added & E & HP).
  destruct (m tr) as [tr1 [a|e]]; simpl in E; subst tr1.
  - destruct (Hk a (tr ++ added)%list) as (added' & E' & HP').
    exists (added ++ added')%list. rewrite E', app_assoc.
    split; [reflexivity | now apply Forall_app].
  - now exists added.
Qed.

End MonadFacts.

Lemma returns_log (lvl : level) (msg : string) :
  returns (fun _ => True) (log lvl msg).
Proof. intros tr. now eexists _, tt. Qed.

(** * Facts about the strategies and the updater *)

Section ServiceFacts.

Variable json_loads : string -> option pyval.
Variable w : world.

Lemma generate_token_python_returns :
  returns outcome_ok (generate_token_python json_loads w).
Proof.
  apply returns_try.
  - repeat (apply if_returns_bind; intros).
    match goal with |- if_returns _ (match ?x with _ => _ end) =>
      destruct x end; [|now apply if_returns_ret].
    repeat (apply if_returns_bind; intros).
    match goal with p : fields |- _ => destruct p as [tok vis] end.
    destruct (truthy tok) eqn:Et, (truthy vis) eqn:Ev; cbn [andb];
      apply if_returns_bind; intros; now apply if_returns_ret.
  - intros e.
    destruct e; (eapply returns_bind; [apply returns_log|]);
      intros; now apply returns_ret.
Qed.

Lemma generate_token_docker_returns :
  returns outcome_ok (generate_token_docker json_loads w).
Proof.
  apply returns_try.
  - repeat (apply if_returns_bind; intros).
    match goal with |- if_returns _ (if ?x then _ else _) =>
      destruct x end.
    + apply if_returns_bind; intros; now apply if_returns_ret.
    + apply if_returns_bind. intros [tok vis].
      destruct (truthy tok) eqn:Et, (truthy vis) eqn:Ev; cbn [andb];
        apply if_returns_bind; intros; now apply if_returns_ret.
  - intros e.
    destruct e; (eapply returns_bind; [apply returns_log|]);
      intros; apply generate_token_python_returns.
Qed.

Lemma generate_token_python_no_docker :
  only_emits not_docker (generate_token_python json_loads w).
Proof.
  apply only_emits_try.
  - apply only_emits_bind; [now apply only_emits_call|intros _].
    apply only_emits_bind; [now apply only_emits_call|intros main_exists].
    apply only_emits_bind; [now apply only_emits_call|intros path_found].
    apply only_emits_bind.
    { destruct path_found; [apply only_emits_ret|].
      apply only_emits_bind; [now apply only_emits_call|intros files].
      destruct files; [|apply only_emits_ret].
      apply only_emits_bind; [now apply only_emits_call|intros _].
      apply only_emits_ret. }
    intros [path|]; [|apply only_emits_ret].
    apply only_emits_bind; [now apply only_emits_call|intros _].
    apply only_emits_bind; [now apply only_emits_call|intros _].
    apply only_emits_bind; [now apply only_emits_call|intros res].
    apply only_emits_bind; [apply only_emits_lift|intros [tok vis]].
    destruct (truthy tok && truthy vis);
      (apply only_emits_bind; [now apply only_emits_call|intros _]);
      apply only_emits_ret.
  - intros e.
    destruct e; (apply only_emits_bind; [now apply only_emits_call|]);
      intros _; apply only_emits_ret.
Qed.

Lemma update_lavalink_token_no_docker (tok vis : pyval) :
  only_emits not_docker (update_lavalink_token w tok vis).
Proof.
  apply only_emits_try.
  - cbv zeta.
    apply only_emits_bind; [now apply only_emits_call|intros resp].
    destruct (status_code resp =? 204);
      (apply only_emits_bind; [now apply only_emits_call|intros _]);
      apply only_emits_ret.
  - intros e. apply only_emits_bind; [now apply only_emits_call|intros _].
    apply only_emits_ret.
Qed.

End ServiceFacts.

(** * The configuration *)

(** C10, as stated, fails: a proxy URL configured as the empty string has
    no scheme and is left empty, so the push goes to [/youtube]. *)
Lemma LAVALINK_URL_empty_stays_empty :
  let env := env_of [("LAVALINK_URL", "")] in
  getenv env "LAVALINK_URL" "http://localhost:9296" = ""
  /\ has_scheme "" = false
  /\ LAVALINK_URL env = ""
  /\ has_scheme (LAVALINK_URL env) = false.
Proof. repeat split. Qed.

(** C10 (amended): the configured proxy URL, when it is not empty and
    starts with neither [http://] nor [https://], gets [http://] in front;
    when it starts with either it is unchanged; so every non-empty
    configured value yields an effective URL that begins with a scheme.
    An empty configured value stays empty. *)
Theorem LAVALINK_URL_normalised (env : string -> option string) :
  let url := getenv env "LAVALINK_URL" "http://localhost:9296" in
  (url <> "" -> has_scheme url = false ->
   LAVALINK_URL env = "http://" ++ url)
  /\ (has_scheme url = true -> LAVALINK_URL env = url)
  /\ (url <> "" -> has_scheme (LAVALINK_URL env) = true)
  /\ (url = "" -> LAVALINK_URL env = "").
Proof.
  intros url. unfold LAVALINK_URL. fold url. fold (has_scheme url).
  clearbody url.
  destruct (String.eqb url "") eqn:E.
  - apply String.eqb_eq in E. subst url. cbn [negb andb].
    repeat split; intros; congruence.
  - apply String.eqb_neq in E. cbn [negb andb].
    destruct (has_scheme url) eqn:S; cbn [negb];
      (split; [|split; [|split]]); intros; try congruence.
    unfold has_scheme.
    now rewrite (PyStrFacts.startswith_app "http://" url).
Qed.

(** A host without scheme, a URL with one, and the default. *)
Lemma LAVALINK_URL_normalised_witness :
  LAVALINK_URL (env_of [("LAVALINK_URL", "lavalink:2333")])
  = "http://lavalink:2333"
  /\ LAVALINK_URL (env_of [("LAVALINK_URL", "https://lava.example")])
     = "https://lava.example"
  /\ has_scheme (LAVALINK_URL (env_of [])) = true.
Proof.
  pose proof
    (LAVALINK_URL_normalised (env_of [("LAVALINK_URL", "lavalink:2333")]))
    as (H1 & _).
  pose proof
    (LAVALINK_URL_normalised
       (env_of [("LAVALINK_URL", "https://lava.example")]))
    as (_ & H2 & _).
  pose proof (LAVALINK_URL_normalised (env_of [])) as (_ & _ & H3 & _).
  split; [apply H1; [discriminate | reflexivity]|].
  split; [apply H2; reflexivity | apply H3; discriminate].
Defined.

(** * The proxy updater *)

(** C5: for every pair, [update_lavalink_token] makes exactly one outside
    call, a POST to [LAVALINK_URL + "/youtube"] whose JSON body is
    [poToken], [visitorData] and whose [Authorization] header is the
    password itself, writes one log line, never raises, and returns [True]
    exactly when an answer came back with status 204. *)
Theorem update_lavalink_token_posts_once (w : world) (tok vis : pyval)
  (tr : trace) :
  let url := LAVALINK_URL (environ w) ++ "/youtube" in
  let headers := [("Content-Type", "application/json");
                  ("Authorization", LAVALINK_PASSWORD (environ w))] in
  let payload := PDict [("poToken", tok); ("visitorData", vis)] in
  exists lvl msg ok,
    update_lavalink_token w tok vis tr
    = ((tr ++ [EvPost url headers payload 10; EvLog lvl msg])%list, Ok ok)
    /\ (ok = true <->
        exists r, requests_post w tr url headers payload = Ok r
                  /\ status_code r = 204).
Proof.
  intros url headers payload.
  unfold update_lavalink_token, try_except, bind, post, log, emit, call, ret.
  fold url. fold headers. fold payload.
  destruct (requests_post w tr url headers payload) as [r|e] eqn:E.
  - destruct (status_code r =? 204) eqn:S.
    + exists INFO. eexists. exists true. rewrite <- app_assoc.
      split; [reflexivity|]. split; [|reflexivity].
      intros _. exists r. apply Z.eqb_eq in S. now split.
    + exists ERROR. eexists. exists false. rewrite <- app_assoc.
      split; [reflexivity|]. split; [discriminate|].
      intros (r' & Hr & H204). inversion Hr. subst r'.
      apply Z.eqb_neq in S. contradiction.
  - exists ERROR. eexists. exists false. rewrite <- app_assoc.
    split; [reflexivity|]. split; [discriminate|].
    intros (r' & Hr & _). discriminate.
Qed.

(** A 200 with a body is a failure; so is a timeout. *)
Example update_lavalink_token_200_fails :
  snd (update_lavalink_token
         (steady_world [] [] (exited 0 "" "") (exited 0 "" "")
            (Ok (Response 200 "ok")))
         (PStr "tok") (PStr "vis") [])
  = Ok false.
Proof. reflexivity. Qed.

(** * The route *)

Section RouteFacts.

Variable use_docker : bool.
Variable gen_python gen_docker : M (option creds).
Variable update : pyval -> pyval -> M bool.

Lemma refresh_route_cases (tr : trace) :
  refresh_route use_docker gen_python gen_docker update tr =
  match generation use_docker gen_python gen_docker
          (tr ++ [EvLog INFO "Token refresh requested via webhook"])%list
  with
  | (tr1, Raise e) => fault_response e tr1
  | (tr1, Ok None) => (tr1, Ok (body_error "Failed to generate token", 500))
  | (tr1, Ok (Some c)) =>
      match update (token c) (visitorData c) tr1 with
      | (tr2, Raise e) => fault_response e tr2
      | (tr2, Ok true) => (tr2, Ok (body_refreshed, 200))
      | (tr2, Ok false) =>
          (tr2, Ok (body_error "Failed to update Lavalink", 500))
      end
  end.
Proof.
  unfold refresh_route, generation, fault_response, try_except, bind, log,
    emit, call, ret.
  destruct (gen_python _) as [tr1 [tokens|e]]; [|reflexivity].
  destruct (no_tokens tokens && use_docker).
  - destruct (gen_docker _) as [tr2 [[c|]|e]]; try reflexivity.
    destruct (update _ _ _) as [tr3 [[|]|e]]; reflexivity.
  - destruct tokens as [c|]; [|reflexivity].
    destruct (update _ _ _) as [tr3 [[|]|e]]; reflexivity.
Qed.

(** When the local-process callee returns a pair, or the container
    fallback is off, the route does not depend on the container callee. *)
Lemma refresh_route_ignores_docker (other : M (option creds)) (tr : trace) :
  (exists c tr1,
     gen_python
       (tr ++ [EvLog INFO "Token refresh requested via webhook"])%list
     = (tr1, Ok (Some c)))
  \/ use_docker = false ->
  refresh_route use_docker gen_python gen_docker update tr
  = refresh_route use_docker gen_python other update tr.
Proof.
  intros H. unfold refresh_route, try_except, bind, log, emit, call, ret.
  destruct H as [(c & tr1 & ->)| ->]; [reflexivity|].
  destruct (gen_python _) as [tr1 [tokens|e]]; [|reflexivity].
  now rewrite andb_false_r.
Qed.

End RouteFacts.

Ltac route_inv :=
  intros;
  repeat match goal with
    | H : (_, _) = (_, _) |- _ => inversion H; clear H; subst
    | H : ?x = (_, _), U : ?x = (_, _) |- _ => rewrite U in H
    end;
  try discriminate; try reflexivity.

(** C4: the answer of [/refresh], for whatever the callees do.  It is 200
    with the success body exactly when generation yields a pair and the
    push of that pair returns [True]; 500 with [Failed to generate token]
    when generation yields nothing; 500 with [Failed to update Lavalink]
    when the push returns [False]; and a fault raised by generation or by
    the push is logged and answered 500 with its message.  The route
    itself never raises. *)
Theorem refresh_route_responses (use_docker : bool)
  (gen_python gen_docker : M (option creds))
  (update : pyval -> pyval -> M bool) (tr : trace) :
  let tr0 :=
    (tr ++ [EvLog INFO "Token refresh requested via webhook"])%list in
  let route := refresh_route use_docker gen_python gen_docker update in
  let gen := generation use_docker gen_python gen_docker in
  (snd (route tr) = Ok (body_refreshed, 200) <->
   exists c tr1 tr2,
     gen tr0 = (tr1, Ok (Some c))
     /\ update (token c) (visitorData c) tr1 = (tr2, Ok true))
  /\ (forall tr1, gen tr0 = (tr1, Ok None) ->
      route tr = (tr1, Ok (body_error "Failed to generate token", 500)))
  /\ (forall c tr1 tr2, gen tr0 = (tr1, Ok (Some c)) ->
      update (token c) (visitorData c) tr1 = (tr2, Ok false) ->
      route tr = (tr2, Ok (body_error "Failed to update Lavalink", 500)))
  /\ (forall e tr1, gen tr0 = (tr1, Raise e) ->
      route tr = fault_response e tr1)
  /\ (forall c e tr1 tr2, gen tr0 = (tr1, Ok (Some c)) ->
      update (token c) (visitorData c) tr1 = (tr2, Raise e) ->
      route tr = fault_response e tr2)
  /\ (exists tr' body status, route tr = (tr', Ok (body, status))).
Proof.
  intros tr0 route gen. subst route gen tr0.
  rewrite refresh_route_cases.
  destruct (generation _ _ _ _) as [tr1 [[c|]|e]] eqn:G;
    [destruct (update (token c) (visitorData c) tr1)
       as [tr2 [[|]|e]] eqn:U | | ];
    (split;
     [split;
      [first [discriminate | intros _; now exists c, tr1, tr2]
      |intros (c' & t1 & t2 & Hg & Hu); route_inv]
     |repeat split; route_inv; now eexists _, _, _]).
Qed.

(** * The strategies *)

Lemma only_emits_weaken {A : Type} (P Q : event -> Prop) (m : M A) :
  (forall ev, P ev -> Q ev) -> only_emits P m -> only_emits Q m.
Proof.
  intros HPQ Hm tr. destruct (Hm tr) as (added & E & HP).
  exists added. split; [exact E | now apply (Forall_impl Q HPQ)].
Qed.

Lemma generate_token_docker_extends (json_loads : string -> option pyval)
  (w : world) :
  only_emits any_event (generate_token_docker json_loads w).
Proof.
  assert (Hpy : only_emits any_event (generate_token_python json_loads w)).
  { apply (only_emits_weaken not_docker); [easy|].
    apply generate_token_python_no_docker. }
  apply only_emits_try.
  - apply only_emits_bind; [now apply only_emits_call|intros _].
    apply only_emits_bind; [now apply only_emits_call|intros res].
    destruct (negb (returncode res =? 0)).
    + apply only_emits_bind; [now apply only_emits_call|intros _].
      apply only_emits_ret.
    + apply only_emits_bind; [apply only_emits_lift|intros [tok vis]].
      destruct (truthy tok && truthy vis);
        (apply only_emits_bind; [now apply only_emits_call|intros _]);
        apply only_emits_ret.
  - intros e.
    destruct e; (apply only_emits_bind; [now apply only_emits_call|]);
      intros _; exact Hpy.
Qed.

(** C6: neither strategy lets an exception out.  Whatever the world
    answers (a missing generator, Xvfb or docker that cannot be launched,
    a timeout, any other error, a nonzero exit, an output that does not
    parse), [generate_token_python] and [generate_token_docker] return,
    and what they return is [None] or a pair whose two fields are true. *)
Theorem strategies_never_raise (json_loads : string -> option pyval)
  (w : world) (tr : trace) :
  (exists tr' o,
     generate_token_python json_loads w tr = (tr', Ok o) /\ outcome_ok o)
  /\ (exists tr' o,
        generate_token_docker json_loads w tr = (tr', Ok o)
        /\ outcome_ok o).
Proof.
  split.
  - apply generate_token_python_returns.
  - apply generate_token_docker_returns.
Qed.

(** What the container strategy does once [docker] has been run. *)
Lemma generate_token_docker_unfold (json_loads : string -> option pyval)
  (w : world) (tr : trace) :
  let tr0 :=
    (tr ++ [EvLog INFO "Generating new token using Docker..."])%list in
  let tr1 := (tr0 ++ [EvRun docker_argv None 60 []])%list in
  let retry e :=
    generate_token_python json_loads w (tr1 ++ [docker_fault_log e])%list in
  generate_token_docker json_loads w tr =
  match subprocess_run w tr0 docker_argv with
  | Raise e => retry e
  | Ok res =>
      if negb (returncode res =? 0)
      then ((tr1 ++ [EvLog ERROR ("Docker command failed: " ++ stderr res)])
              %list, Ok None)
      else
        match parse_docker json_loads (stdout res) with
        | Ok (tok, vis) =>
            if truthy tok && truthy vis
            then ((tr1 ++ [EvLog INFO "Successfully generated new token"])
                    %list, Ok (Some (Creds tok vis)))
            else ((tr1 ++ [EvLog ERROR "Failed to parse token from output"])
                    %list, Ok None)
        | Raise e => retry e
        end
  end.
Proof.
  intros tr0 tr1 retry. subst tr0 tr1 retry.
  unfold generate_token_docker, try_except, bind, run, log, emit, call, ret,
    lift.
  fold docker_argv.
  destruct (subprocess_run w _ docker_argv) as [res|e].
  - destruct (negb (returncode res =? 0)); [reflexivity|].
    destruct (parse_docker json_loads (stdout res)) as [[tok vis]|e].
    + destruct (truthy tok && truthy vis); reflexivity.
    + destruct e; reflexivity.
  - destruct e; reflexivity.
Qed.

(** C8: when the [docker] executable cannot be found, the container
    strategy logs it, runs the local-process strategy again and returns
    what that returns. *)
Theorem docker_missing_retries_python (json_loads : string -> option pyval)
  (w : world) (tr : trace) (msg : string) :
  let tr0 :=
    (tr ++ [EvLog INFO "Generating new token using Docker..."])%list in
  subprocess_run w tr0 docker_argv = Raise (FileNotFoundError msg) ->
  generate_token_docker json_loads w tr
  = generate_token_python json_loads w
      (tr0 ++ [EvRun docker_argv None 60 [];
               EvLog INFO "Docker not available, trying Python method..."])
        %list.
Proof.
  intros tr0 H. rewrite generate_token_docker_unfold. fold tr0.
  cbv zeta. rewrite H, <- app_assoc. reflexivity.
Qed.

(** C9: any exception of the docker invocation, a timeout and a launch
    error as much as a missing executable, makes the container strategy
    log it and return what a new run of the local-process strategy
    returns; a docker process that ends with a nonzero status makes it
    return [None] at once, the local-process strategy not being run. *)
Theorem docker_exception_retries_exit_status_fails
  (json_loads : string -> option pyval) (w : world) (tr : trace) :
  let tr0 :=
    (tr ++ [EvLog INFO "Generating new token using Docker..."])%list in
  (forall e, subprocess_run w tr0 docker_argv = Raise e ->
     exists lvl msg,
       generate_token_docker json_loads w tr
       = generate_token_python json_loads w
           (tr0 ++ [EvRun docker_argv None 60 []; EvLog lvl msg])%list)
  /\ (forall res, subprocess_run w tr0 docker_argv = Ok res ->
        returncode res <> 0 ->
        generate_token_docker json_loads w tr
        = ((tr0 ++ [EvRun docker_argv None 60 [];
                    EvLog ERROR ("Docker command failed: " ++ stderr res)])
             %list,
           Ok None)).
Proof.
  intros tr0. split.
  - intros e H. rewrite generate_token_docker_unfold. fold tr0.
    cbv zeta. rewrite H.
    destruct e; eexists _, _; rewrite <- app_assoc; reflexivity.
  - intros res H Hcode. rewrite generate_token_docker_unfold. fold tr0.
    cbv zeta. rewrite H. apply Z.eqb_neq in Hcode. rewrite Hcode. cbn [negb].
    now rewrite <- app_assoc.
Qed.

(** * The order of the strategies in the route *)

Lemma Forall_not_docker_app (l1 l2 : list event) :
  Forall not_docker l1 -> Forall not_docker l2 ->
  Forall not_docker (l1 ++ l2).
Proof. intros H1 H2. now apply Forall_app. Qed.

(** C3: [refresh_token] runs the local-process strategy first, right
    after its opening log line.  When that strategy returns a pair, the
    whole request shows no event of the container strategy (neither its
    opening log line nor a launch of [docker]).  When it returns [None]
    and [USE_DOCKER] is false, the request ends there with the 500
    [Failed to generate token], again without any event of the container
    strategy. *)
Theorem refresh_tries_python_first (json_loads : string -> option pyval)
  (w : world) (tr : trace) :
  let tr0 :=
    (tr ++ [EvLog INFO "Token refresh requested via webhook"])%list in
  let py := generate_token_python json_loads w tr0 in
  (exists rest, fst (refresh_token json_loads w tr) = (fst py ++ rest)%list)
  /\ (forall c, snd py = Ok (Some c) ->
      exists added,
        fst (refresh_token json_loads w tr) = (tr ++ added)%list
        /\ Forall not_docker added)
  /\ (snd py = Ok None -> USE_DOCKER (environ w) = false ->
      refresh_token json_loads w tr
      = (fst py, Ok (body_error "Failed to generate token", 500))
      /\ exists added,
           fst py = (tr ++ added)%list /\ Forall not_docker added).
Proof.
  intros tr0 py.
  destruct (generate_token_python_no_docker json_loads w tr0)
    as (added_p & Ep & Hp).
  fold py in Ep.
  assert (Hup : forall c tr1, exists added_u,
             fst (update_lavalink_token w (token c) (visitorData c) tr1)
             = (tr1 ++ added_u)%list /\ Forall not_docker added_u).
  { intros c tr1. apply update_lavalink_token_no_docker. }
  unfold refresh_token. rewrite refresh_route_cases. fold tr0.
  unfold generation, bind. fold py.
  destruct py as [tr1 [[c|]|e]] eqn:Epy; cbn [fst snd] in *.
  - (* the local-process strategy returned a pair *)
    cbn [no_tokens andb]. unfold ret.
    destruct (Hup c tr1) as (added_u & Eu & Hu).
    destruct (update_lavalink_token w (token c) (visitorData c) tr1)
      as [tr2 [[|]|e]]; cbn [fst] in *; subst tr2 tr1;
      (split; [|split; [|intros; discriminate]]).
    + now exists added_u.
    + intros _ _. exists ([EvLog INFO "Token refresh requested via webhook"]
                         ++ added_p ++ added_u)%list.
      unfold tr0. rewrite <- !app_assoc. split; [reflexivity|].
      apply Forall_not_docker_app; [now repeat constructor|].
      now apply Forall_not_docker_app.
    + now exists added_u.
    + intros _ _. exists ([EvLog INFO "Token refresh requested via webhook"]
                         ++ added_p ++ added_u)%list.
      unfold tr0. rewrite <- !app_assoc. split; [reflexivity|].
      apply Forall_not_docker_app; [now repeat constructor|].
      now apply Forall_not_docker_app.
    + eexists. unfold fault_response. cbn [fst].
      rewrite <- app_assoc. reflexivity.
    + intros _ _. unfold fault_response. cbn [fst].
      exists ([EvLog INFO "Token refresh requested via webhook"]
              ++ added_p ++ added_u
              ++ [EvLog ERROR ("Error in refresh endpoint: " ++ exn_str e)])
             %list.
      unfold tr0. rewrite <- !app_assoc. split; [reflexivity|].
      apply Forall_not_docker_app; [now repeat constructor|].
      apply Forall_not_docker_app; [assumption|].
      apply Forall_not_docker_app; [assumption|now repeat constructor].
  - (* it returned None *)
    cbn [no_tokens andb]. split; [|split; [intros; discriminate|]].
    + destruct (USE_DOCKER (environ w)).
      * unfold log, emit, call.
        destruct (generate_token_docker_extends json_loads w
                    (tr1 ++ [EvLog INFO
                               "Python method failed, trying Docker..."])
                    %list) as (added_d & Ed & _).
        destruct (generate_token_docker json_loads w _)
          as [tr2 [[c|]|e]]; cbn [fst] in *; subst tr2.
        -- destruct (Hup c ((tr1 ++ [EvLog INFO
                               "Python method failed, trying Docker..."])
                            ++ added_d)%list) as (added_u & Eu & _).
           destruct (update_lavalink_token w _ _ _) as [tr3 [[|]|e]];
             cbn [fst] in *; subst tr3; unfold fault_response; cbn [fst];
             rewrite <- ?app_assoc; now eexists.
        -- rewrite <- ?app_assoc; now eexists.
        -- unfold fault_response; cbn [fst].
           rewrite <- ?app_assoc; now eexists.
      * unfold ret. exists []. now rewrite app_nil_r.
    + intros _ Hoff. rewrite Hoff. unfold ret. split; [reflexivity|].
      exists ([EvLog INFO "Token refresh requested via webhook"]
              ++ added_p)%list.
      subst tr1. unfold tr0. rewrite <- !app_assoc.
      split; [reflexivity|].
      apply Forall_not_docker_app; [now repeat constructor|assumption].
  - (* it raised: the handler of the route answers *)
    split; [|split; intros; discriminate].
    unfold fault_response. cbn [fst]. now eexists.
Qed.

(** * The parsers inside the strategies *)

Section ParserInStrategies.

Variable json_loads : string -> option pyval.
Variable w : world.

(** X18: the container strategy returns what its parser makes of the
    standard output of a docker run that ended with status 0; the standard
    error is not read. *)
Lemma generate_token_docker_parses (tr : trace) (res : completed) :
  subprocess_run w
    (tr ++ [EvLog INFO "Generating new token using Docker..."])%list
    docker_argv = Ok res ->
  returncode res = 0 ->
  snd (generate_token_docker json_loads w tr)
  = output_parser (parse_docker json_loads) (stdout res).
Proof.
  intros Hrun Hcode. rewrite generate_token_docker_unfold. cbv zeta.
  rewrite Hrun, Hcode. cbn [Z.eqb negb]. unfold output_parser.
  assert (Hok : exists st, parse_docker json_loads (stdout res) = Ok st).
  { unfold parse_docker, parse_with.
    destruct (json_pass json_loads (stdout res)) as [tok vis].
    destruct (negb (truthy tok) || negb (truthy vis)); [|now eexists].
    apply scan_lines_ok, scan_line_docker_ok. }
  destruct Hok as [[tok vis] ->]. unfold pair_or_none.
  now destruct (truthy tok && truthy vis).
Qed.

(** X19: the local-process strategy returns [None], or what its parser
    makes of the standard output followed by the standard error of a
    generator run. *)
Lemma generate_token_python_parses (tr : trace) :
  snd (generate_token_python json_loads w tr) = Ok None
  \/ exists tr' path res,
       subprocess_run w tr' ["python3"; path] = Ok res
       /\ snd (generate_token_python json_loads w tr)
          = output_parser (parse_python json_loads)
              (stdout res ++ stderr res).
Proof.
  unfold generate_token_python, try_except, bind, os_path_exists, glob,
    Popen, sleep, run, log, emit, call, ret, lift, output_parser,
    pair_or_none.
  repeat match goal with
    | |- context [match ?x with _ => _ end] =>
        lazymatch x with
        | context [match _ with _ => _ end] => fail
        | _ => destruct x eqn:?
        end
    end;
    cbn [fst snd];
    try (left; reflexivity);
    right; eexists _, _, _; (split; [eassumption|]);
    repeat match goal with H : _ = _ |- _ => rewrite H end;
    reflexivity.
Qed.

End ParserInStrategies.

(** * The claims about the parser *)

(** C7: when the first-brace-to-last-brace substring of the output does
    not decode, neither parser raises; each one is then its line scan
    started with no field, and what the strategy returns for that output
    is the pair when the scan found both fields true, [None] otherwise. *)
Theorem undecodable_json_falls_through
  (json_loads : string -> option pyval) (output : string) :
  json_loads (brace_substring output) = None ->
  (exists tok vis,
     scan_lines scan_line_python (PNone, PNone)
       (PyStr.split newline output) = Ok (tok, vis)
     /\ parse_python json_loads output = Ok (tok, vis)
     /\ output_parser (parse_python json_loads) output
        = Ok (if truthy tok && truthy vis then Some (Creds tok vis)
              else None))
  /\ (exists tok vis,
        scan_lines scan_line_docker (PNone, PNone)
          (PyStr.split newline output) = Ok (tok, vis)
        /\ parse_docker json_loads output = Ok (tok, vis)
        /\ output_parser (parse_docker json_loads) output
           = Ok (if truthy tok && truthy vis then Some (Creds tok vis)
                 else None)).
Proof.
  intros H. apply json_pass_undecodable in H.
  unfold output_parser, parse_python, parse_docker, parse_with.
  rewrite H. cbn [truthy negb orb].
  split.
  - destruct (scan_lines_ok scan_line_python scan_line_python_ok
                (PyStr.split newline output) (PNone, PNone))
      as [[tok vis] E].
    exists tok, vis. rewrite E. now repeat split.
  - destruct (scan_lines_ok scan_line_docker scan_line_docker_ok
                (PyStr.split newline output) (PNone, PNone))
      as [[tok vis] E].
    exists tok, vis. rewrite E. now repeat split.
Qed.

(** On [output_unbalanced] the decoder rejects the brace substring, the
    scans find a visitor value but no token, and both parsers give [None]. *)
Lemma undecodable_json_falls_through_witness :
  json_decode (brace_substring output_unbalanced) = None
  /\ Json.decode (brace_substring output_unbalanced) = Json.Invalid
  /\ output_parser (parse_python json_decode) output_unbalanced = Ok None
  /\ output_parser (parse_docker json_decode) output_unbalanced = Ok None.
Proof.
  assert (H : json_decode (brace_substring output_unbalanced) = None)
    by (vm_compute; reflexivity).
  destruct (undecodable_json_falls_through json_decode output_unbalanced H)
    as ((t1 & v1 & S1 & _ & P1) & (t2 & v2 & S2 & _ & P2)).
  vm_compute in S1. inversion S1. subst t1 v1.
  vm_compute in S2. inversion S2. subst t2 v2.
  split; [exact H|]. split; [vm_compute; reflexivity|].
  split; [exact P1 | exact P2].
Defined.

(** C2, as stated, fails: a closing brace in the noise after the JSON makes
    the brace substring undecodable, the line scan takes over and neither
    parser returns the two values of the JSON. *)
Lemma json_with_brace_in_noise_is_lost :
  let json := q "{`token`:`abc`,`visitorData`:`xyz`}" in
  let output := json ++ " }" in
  json_decode json
  = Some (PDict [("token", PStr "abc"); ("visitorData", PStr "xyz")])
  /\ brace_substring output = output
  /\ Json.decode output = Json.Invalid
  /\ output_parser (parse_python json_decode) output = Ok None
  /\ output_parser (parse_docker json_decode) output = Ok None.
Proof. vm_compute. repeat split. Qed.

(** C2 (amended): when the text before an embedded JSON object has no
    opening brace and the text after it has no closing brace, and the
    object decodes to a dict whose [token] (or else [poToken]) value and
    whose [visitorData] (or else [visitor_data]) value are both true,
    both parsers return exactly these two values. *)
Theorem embedded_json_is_returned (json_loads : string -> option pyval)
  (pre body post : string) (data : list (string * pyval)) :
  let json := "{" ++ body ++ "}" in
  let tok := py_or (dict_get data "token") (dict_get data "poToken") in
  let vis :=
    py_or (dict_get data "visitorData") (dict_get data "visitor_data") in
  PyStr.has_char "{" pre = false ->
  PyStr.has_char "}" post = false ->
  json_loads json = Some (PDict data) ->
  truthy tok = true ->
  truthy vis = true ->
  output_parser (parse_python json_loads) (pre ++ json ++ post)
  = Ok (Some (Creds tok vis))
  /\ output_parser (parse_docker json_loads) (pre ++ json ++ post)
     = Ok (Some (Creds tok vis)).
Proof.
  intros json tok vis Hpre Hpost Hjson Htok Hvis.
  unfold output_parser, parse_python, parse_docker, parse_with.
  subst json.
  rewrite (json_pass_embedded json_loads pre body post data Hpre Hpost Hjson).
  fold tok. fold vis. rewrite Htok, Hvis. cbn [negb orb].
  unfold pair_or_none. rewrite Htok, Hvis. now split.
Qed.

(** A JSON object in the middle of a log line, with the alternative keys. *)
Lemma embedded_json_is_returned_witness :
  let output :=
    "INFO starting" ++ String newline
      (q "result: {`poToken`:`abc`, `visitor_data`:`xyz`} done") in
  output_parser (parse_python json_decode) output
  = Ok (Some (Creds (PStr "abc") (PStr "xyz")))
  /\ output_parser (parse_docker json_decode) output
     = Ok (Some (Creds (PStr "abc") (PStr "xyz"))).
Proof.
  exact (embedded_json_is_returned json_decode
           ("INFO starting" ++ String newline "result: ")
           (q "`poToken`:`abc`, `visitor_data`:`xyz`") " done"
           [("poToken", PStr "abc"); ("visitor_data", PStr "xyz")]
           eq_refl eq_refl eq_refl eq_refl eq_refl).
Defined.

(** C1: the scan of the local-process strategy drops a token candidate of
    15 characters (see [scan_line_python_token] for every line), but the
    scan of the container strategy has no length test (see
    [scan_line_docker_token]): on the output below, produced by a docker
    run that ends with status 0, the container strategy returns the
    15-character candidate as the token. *)
Theorem docker_scan_accepts_short_token :
  let output :=
    "token: abcdefghijklmno" ++ String newline "visitorData: xyz987" in
  let w :=
    steady_world [] [] (exited 1 "" "") (exited 0 output "") no_content in
  PyStr.len "abcdefghijklmno" = 15
  /\ output_parser (parse_python json_decode) output = Ok None
  /\ output_parser (parse_docker json_decode) output
     = Ok (Some (Creds (PStr "abcdefghijklmno") (PStr "xyz987")))
  /\ snd (generate_token_docker json_decode w [])
     = Ok (Some (Creds (PStr "abcdefghijklmno") (PStr "xyz987"))).
Proof. vm_compute. repeat split. Qed.

(** The same candidate with 21 characters passes both scans, with 20 it
    passes only the container's. *)
Example python_scan_boundary :
  scan_line_python (PNone, PNone) "Token: abcdefghijklmnopqrstu"
  = Ok (PStr "abcdefghijklmnopqrstu", PNone)
  /\ scan_line_python (PNone, PNone) "Token: abcdefghijklmnopqrst"
     = Ok (PNone, PNone)
  /\ scan_line_docker (PNone, PNone) "Token: abcdefghijklmnopqrst"
     = Ok (PStr "abcdefghijklmnopqrst", PNone).
Proof. vm_compute. repeat split. Qed.

(** * The strategies and the route in concrete worlds *)

(** Without a [docker] executable the container strategy is a run of the
    local-process strategy after three events of its own. *)
Lemma docker_missing_retries_python_witness :
  generate_token_docker json_decode world_docker_missing []
  = generate_token_python json_decode world_docker_missing
      [EvLog INFO "Generating new token using Docker...";
       EvRun docker_argv None 60 [];
       EvLog INFO "Docker not available, trying Python method..."].
Proof.
  exact (docker_missing_retries_python json_decode world_docker_missing []
           "[Errno 2] No such file or directory" eq_refl).
Defined.

(** A docker run that times out, and one that ends with status 125. *)
Lemma docker_exception_retries_exit_status_fails_witness :
  (exists lvl msg,
     generate_token_docker json_decode world_docker_timeout []
     = generate_token_python json_decode world_docker_timeout
         [EvLog INFO "Generating new token using Docker...";
          EvRun docker_argv None 60 []; EvLog lvl msg])
  /\ generate_token_docker json_decode world_docker_fails []
     = ([EvLog INFO "Generating new token using Docker...";
         EvRun docker_argv None 60 [];
         EvLog ERROR "Docker command failed: docker: image not found"],
        Ok None).
Proof.
  split.
  - exact (proj1 (docker_exception_retries_exit_status_fails json_decode
                    world_docker_timeout [])
             (TimeoutExpired "timed out after 60 seconds") eq_refl).
  - refine (proj2 (docker_exception_retries_exit_status_fails json_decode
                     world_docker_fails [])
              (Completed 125 "" "docker: image not found") eq_refl _).
    discriminate.
Defined.

(** A request served by the local-process strategy, and one that fails
    with the container fallback off: the whole trace is shown. *)
Lemma refresh_tries_python_first_witness :
  (exists added,
     fst (refresh_token json_decode world_good []) = added
     /\ Forall not_docker added)
  /\ refresh_token json_decode world_no_generator_no_docker []
     = ([EvLog INFO "Token refresh requested via webhook";
         EvLog INFO "Generating new token using Python method...";
         EvExists "/app/generator/main.py";
         EvExists "/app/generator/generate.py";
         EvGlob "/app/generator/*.py";
         EvLog ERROR "Generator script not found"],
        Ok (body_error "Failed to generate token", 500)).
Proof.
  split.
  - destruct (refresh_tries_python_first json_decode world_good [])
      as (_ & H & _).
    exact (H (Creds (PStr "tok-1") (PStr "vis-1")) eq_refl).
  - destruct (refresh_tries_python_first json_decode
                world_no_generator_no_docker []) as (_ & _ & H).
    exact (proj1 (H eq_refl eq_refl)).
Defined.

(** The three answers of the module's own route, and the answer to a fault
    of a callee. *)
Lemma refresh_route_responses_witness :
  snd (refresh_token json_decode world_good []) = Ok (body_refreshed, 200)
  /\ snd (refresh_token json_decode world_no_generator_no_docker [])
     = Ok (body_error "Failed to generate token", 500)
  /\ snd (refresh_token json_decode world_lavalink_down [])
     = Ok (body_error "Failed to update Lavalink", 500)
  /\ snd (refresh_route true (raising "boom") (raising "boom")
            (fun _ _ => raising "boom") [])
     = Ok (body_error "boom", 500).
Proof.
  split; [|split; [|split]].
  - apply (proj1 (refresh_route_responses _ _ _ _ [])).
    eexists _, _, _. split; vm_compute; reflexivity.
  - destruct (refresh_route_responses
                (USE_DOCKER (environ world_no_generator_no_docker))
                (generate_token_python json_decode
                   world_no_generator_no_docker)
                (generate_token_docker json_decode
                   world_no_generator_no_docker)
                (update_lavalink_token world_no_generator_no_docker) [])
      as (_ & H & _).
    unfold refresh_token.
    erewrite H by (vm_compute; reflexivity). reflexivity.
  - destruct (refresh_route_responses
                (USE_DOCKER (environ world_lavalink_down))
                (generate_token_python json_decode world_lavalink_down)
                (generate_token_docker json_decode world_lavalink_down)
                (update_lavalink_token world_lavalink_down) [])
      as (_ & _ & H & _).
    unfold refresh_token.
    erewrite H by (vm_compute; reflexivity). reflexivity.
  - destruct (refresh_route_responses true (raising "boom")
                (raising "boom") (fun _ _ => raising "boom") [])
      as (_ & _ & _ & H & _).
    erewrite H by (vm_compute; reflexivity). reflexivity.
Defined.

(** * Further properties of the parsers *)

Section MoreParserFacts.

Variable json_loads : string -> option pyval.

Import PyStr PyStrFacts.

Lemma find_lower_bound (c : ascii) (s : string) : -1 <= find c s.
Proof.
  induction s as [|a s IH]; simpl; [lia|].
  destruct (Ascii.eqb a c); [lia|].
  destruct (find c s <? 0) eqn:E; [lia | apply Z.ltb_ge in E; lia].
Qed.

Lemma parse_with_ok (step : fields -> string -> result fields)
  (output : string) :
  (forall st line, exists st', step st line = Ok st') ->
  exists st, parse_with json_loads step output = Ok st.
Proof.
  intros Hstep. unfold parse_with.
  destruct (json_pass json_loads output) as [tok vis].
  destruct (negb (truthy tok) || negb (truthy vis)); [|now eexists].
  now apply scan_lines_ok.
Qed.

(** X1: neither parser raises, whatever the output and whatever the
    decoder answers: the [IndexError] of [split(':', 1)[1]] cannot occur. *)
Theorem parsers_never_raise (output : string) :
  (exists st, parse_python json_loads output = Ok st)
  /\ (exists st, parse_docker json_loads output = Ok st).
Proof.
  split.
  - apply parse_with_ok, scan_line_python_ok.
  - apply parse_with_ok, scan_line_docker_ok.
Qed.




(** X3: without an opening brace, without a closing brace, or with the
    last closing brace before the first opening one, the decoder is not
    consulted: the JSON pass finds nothing and both parsers are their line
    scan, for every decoder. *)
Theorem json_pass_needs_braces (output : string) :
  has_char "{" output = false
  \/ has_char "}" output = false
  \/ rfind "}" output < find "{" output ->
  json_pass json_loads output = (PNone, PNone)
  /\ parse_python json_loads output
     = scan_lines scan_line_python (PNone, PNone) (split newline output)
  /\ parse_docker json_loads output
     = scan_lines scan_line_docker (PNone, PNone) (split newline output).
Proof.
  intros H.
  assert (E : json_pass json_loads output = (PNone, PNone)).
  { unfold json_pass.
    pose proof (find_lower_bound "{" output) as Lb.
    destruct ((0 <=? find "{" output)
              && (find "{" output <? rfind "}" output + 1)) eqn:G;
      [|reflexivity].
    apply andb_true_iff in G as [G1 G2].
    apply Z.leb_le in G1. apply Z.ltb_lt in G2.
    destruct H as [H|[H|H]].
    - apply find_absent in H. lia.
    - apply rfind_absent in H. lia.
    - lia. }
  split; [exact E|].
  unfold parse_python, parse_docker, parse_with. rewrite E. now split.
Qed.

End MoreParserFacts.

Lemma json_pass_needs_braces_witness :
  let output := "} token: abcdefghijklmnopqrstuvwxyz {" in
  json_pass json_decode output = (PNone, PNone)
  /\ parse_python json_decode output
     = scan_lines scan_line_python (PNone, PNone)
         (PyStr.split newline output)
  /\ parse_docker json_decode output
     = scan_lines scan_line_docker (PNone, PNone)
         (PyStr.split newline output).
Proof.
  apply (json_pass_needs_braces json_decode). right. right.
  vm_compute. reflexivity.
Defined.

(** * A printed [key: value] line read back *)

Section KeyValueLines.

Import PyStr PyStrFacts.











End KeyValueLines.

(** * Further properties of the strategies *)

Ltac unfold_strategy :=
  unfold generate_token_python, try_except, bind, os_path_exists, glob,
    Popen, sleep, run, log, emit, call, ret, lift.

Ltac split_matches :=
  repeat match goal with
    | |- context [match ?x with _ => _ end] =>
        lazymatch x with
        | context [match _ with _ => _ end] => fail
        | _ => destruct x eqn:?
        end
    end.

Section MoreStrategyFacts.

Variable json_loads : string -> option pyval.
Variable w : world.

(** X6: when neither [main.py] nor [generate.py] exists and the glob
    finds no script, the local-process strategy logs it and returns
    [None] after three looks at the file system: it starts no process,
    not even Xvfb. *)
Theorem python_without_generator (tr : trace) :
  let tr0 :=
    (tr ++ [EvLog INFO "Generating new token using Python method..."])%list in
  let tr1 := (tr0 ++ [EvExists "/app/generator/main.py"])%list in
  let tr2 := (tr1 ++ [EvExists "/app/generator/generate.py"])%list in
  path_exists w tr0 "/app/generator/main.py" = false ->
  path_exists w tr1 "/app/generator/generate.py" = false ->
  glob_glob w tr2 "/app/generator/*.py" = [] ->
  generate_token_python json_loads w tr
  = ((tr2 ++ [EvGlob "/app/generator/*.py";
              EvLog ERROR "Generator script not found"])%list,
     Ok None).
Proof.
  intros tr0 tr1 tr2 Hmain Hgenerate Hglob. unfold_strategy.
  fold tr0. rewrite Hmain. fold tr1. rewrite Hgenerate. fold tr2.
  rewrite Hglob. now rewrite <- app_assoc.
Qed.

(** X7: when Xvfb cannot be started the local-process strategy gives up:
    it returns [None] and the generator is not run. *)
Theorem python_needs_xvfb (tr : trace) :
  (forall tr' argv, exists e, popen w tr' argv = Raise e) ->
  exists added,
    generate_token_python json_loads w tr = ((tr ++ added)%list, Ok None)
    /\ Forall (fun ev => is_run ev = false) added.
Proof.
  intros Hxvfb. unfold_strategy.
  split_matches;
    try match goal with
      | H : popen w ?t ?a = Ok _ |- _ =>
          destruct (Hxvfb t a) as [? ?]; congruence
      end;
    (eexists; split;
     [rewrite <- ?app_assoc; reflexivity | cbn; now repeat constructor]).
Qed.

(** X8: the local-process strategy does not look at the exit status of
    the generator: with every status replaced by [code] it does and
    returns the same. *)
Theorem python_ignores_exit_status (code : Z) (tr : trace) :
  generate_token_python json_loads (with_returncode code w) tr
  = generate_token_python json_loads w tr.
Proof.
  unfold_strategy.
  cbn [with_returncode environ path_exists glob_glob popen subprocess_run
       requests_post].
  split_matches; cbn [stdout stderr] in *; congruence.
Qed.

Lemma generate_token_python_events :
  only_emits python_event (generate_token_python json_loads w).
Proof.
  apply only_emits_try.
  - apply only_emits_bind; [now apply only_emits_call|intros _].
    apply only_emits_bind; [now apply only_emits_call|intros main_exists].
    apply only_emits_bind; [now apply only_emits_call|intros path_found].
    apply only_emits_bind.
    { destruct path_found; [apply only_emits_ret|].
      apply only_emits_bind; [now apply only_emits_call|intros files].
      destruct files; [|apply only_emits_ret].
      apply only_emits_bind; [now apply only_emits_call|intros _].
      apply only_emits_ret. }
    intros [path|]; [|apply only_emits_ret].
    apply only_emits_bind; [now apply only_emits_call|intros _].
    apply only_emits_bind; [now apply only_emits_call|intros _].
    apply only_emits_bind.
    { apply only_emits_call. cbn. split; [now exists path|easy]. }
    intros res.
    apply only_emits_bind; [apply only_emits_lift|intros [tok vis]].
    destruct (truthy tok && truthy vis);
      (apply only_emits_bind; [now apply only_emits_call|intros _]);
      apply only_emits_ret.
  - intros e.
    destruct e; (apply only_emits_bind; [now apply only_emits_call|]);
      intros _; apply only_emits_ret.
Qed.

Lemma generate_token_docker_events :
  only_emits docker_strategy_event (generate_token_docker json_loads w).
Proof.
  assert (Hpy : only_emits docker_strategy_event
                  (generate_token_python json_loads w)).
  { apply (only_emits_weaken python_event); [now left|].
    apply generate_token_python_events. }
  assert (Hlog : forall lvl msg, docker_strategy_event (EvLog lvl msg))
    by (intros; now left).
  apply only_emits_try.
  - apply only_emits_bind; [apply only_emits_call, Hlog|intros _].
    apply only_emits_bind; [apply only_emits_call; now right|intros res].
    destruct (negb (returncode res =? 0)).
    + apply only_emits_bind; [apply only_emits_call, Hlog|intros _].
      apply only_emits_ret.
    + apply only_emits_bind; [apply only_emits_lift|intros [tok vis]].
      destruct (truthy tok && truthy vis);
        (apply only_emits_bind; [apply only_emits_call, Hlog|intros _]);
        apply only_emits_ret.
  - intros e.
    destruct e; (apply only_emits_bind; [apply only_emits_call, Hlog|]);
      intros _; exact Hpy.
Qed.

(** X9: the local-process strategy starts nothing but Xvfb and [python3]
    on one script, the latter in [/app/generator] with a 120 second
    timeout and [DISPLAY], [HEADLESS] set, and sends no HTTP request; the
    container strategy adds to that only its one docker run with a 60
    second timeout. *)
Theorem strategies_start_only_their_tools (tr : trace) :
  (exists added,
     fst (generate_token_python json_loads w tr) = (tr ++ added)%list
     /\ Forall python_event added)
  /\ (exists added,
        fst (generate_token_docker json_loads w tr) = (tr ++ added)%list
        /\ Forall docker_strategy_event added).
Proof.
  split.
  - apply generate_token_python_events.
  - apply generate_token_docker_events.
Qed.

End MoreStrategyFacts.

Lemma python_without_generator_witness :
  generate_token_python json_decode world_nothing_installed []
  = ([EvLog INFO "Generating new token using Python method...";
      EvExists "/app/generator/main.py";
      EvExists "/app/generator/generate.py";
      EvGlob "/app/generator/*.py";
      EvLog ERROR "Generator script not found"],
     Ok None).
Proof.
  exact (python_without_generator json_decode world_nothing_installed []
           eq_refl eq_refl eq_refl).
Defined.

Lemma python_needs_xvfb_witness :
  exists added,
    generate_token_python json_decode (without_xvfb world_good) []
    = (added, Ok None)
    /\ Forall (fun ev => is_run ev = false) added.
Proof.
  apply (python_needs_xvfb json_decode (without_xvfb world_good) []).
  intros tr' argv. now eexists.
Defined.

(** A docker run with status 0: what the container strategy returns is
    what its parser makes of the standard output. *)
Lemma generate_token_docker_parses_witness :
  snd (generate_token_docker json_decode world_good [])
  = output_parser (parse_docker json_decode) good_output.
Proof.
  exact (generate_token_docker_parses json_decode world_good []
           (Completed 0 good_output "") eq_refl eq_refl).
Defined.

(** * Further properties of the updater and the route *)

Lemma returns_bind_with {A B : Type} (P : A -> Prop) (Q : B -> Prop)
  (m : M A) (k : A -> M B) :
  returns P m -> (forall a, P a -> returns Q (k a)) -> returns Q (bind m k).
Proof.
  intros Hm Hk tr. unfold bind.
  destruct (Hm tr) as (tr1 & a & -> & Ha). now apply Hk.
Qed.

Lemma filter_is_post_none (l : list event) :
  Forall not_post l -> filter is_post l = [].
Proof.
  induction 1 as [|ev l Hev _ IH]; simpl; [reflexivity|].
  unfold not_post in Hev. now rewrite Hev.
Qed.

(** What the updater does, by the answer of Lavalink. *)
Lemma update_lavalink_token_unfold (w : world) (tok vis : pyval)
  (tr : trace) :
  update_lavalink_token w tok vis tr =
  match requests_post w tr (push_url w) (push_headers w)
          (push_payload tok vis) with
  | Ok r =>
      if status_code r =? 204
      then ((tr ++ [push_event w tok vis;
                    EvLog INFO "✅ Successfully updated Lavalink token!"])
              %list, Ok true)
      else ((tr ++ [push_event w tok vis;
                    EvLog ERROR ("Failed to update token. Status: "
                                 ++ str_of_Z (status_code r))])%list,
            Ok false)
  | Raise e =>
      ((tr ++ [push_event w tok vis;
               EvLog ERROR ("Error updating Lavalink token: " ++ exn_str e)])
         %list, Ok false)
  end.
Proof.
  unfold update_lavalink_token, try_except, bind, post, log, emit, call, ret,
    push_event, push_url, push_headers, push_payload.
  destruct (requests_post w tr _ _ _) as [r|e].
  - destruct (status_code r =? 204); now rewrite <- app_assoc.
  - now rewrite <- app_assoc.
Qed.

Section MoreRouteFacts.

Variable json_loads : string -> option pyval.
Variable w : world.

Lemma generation_returns : returns outcome_ok (refresh_generation json_loads w).
Proof.
  apply (returns_bind_with outcome_ok).
  - apply generate_token_python_returns.
  - intros tokens Htokens.
    destruct (no_tokens tokens && USE_DOCKER (environ w)).
    + eapply returns_bind; [apply returns_log|intros _].
      apply generate_token_docker_returns.
    + now apply returns_ret.
Qed.

Lemma generation_no_post : only_emits not_post (refresh_generation json_loads w).
Proof.
  assert (Hpy : forall ev, python_event ev -> not_post ev)
    by (intros [] H; try reflexivity; contradiction).
  apply only_emits_bind.
  - apply (only_emits_weaken python_event); [exact Hpy|].
    apply generate_token_python_events.
  - intros tokens.
    destruct (no_tokens tokens && USE_DOCKER (environ w));
      [|apply only_emits_ret].
    apply only_emits_bind; [now apply only_emits_call|intros _].
    apply (only_emits_weaken docker_strategy_event).
    + intros ev [H| ->]; [now apply Hpy | reflexivity].
    + apply generate_token_docker_events.
Qed.

(** X10: with the module's own strategies and updater the handler of
    [refresh_token] is never reached: every request is answered by one of
    the three fixed responses. *)
Theorem refresh_token_three_answers (tr : trace) :
  exists tr',
    refresh_token json_loads w tr = (tr', Ok (body_refreshed, 200))
    \/ refresh_token json_loads w tr
       = (tr', Ok (body_error "Failed to generate token", 500))
    \/ refresh_token json_loads w tr
       = (tr', Ok (body_error "Failed to update Lavalink", 500)).
Proof.
  unfold refresh_token. rewrite refresh_route_cases.
  destruct (generation_returns
              (tr ++ [EvLog INFO "Token refresh requested via webhook"])
              %list) as (tr1 & o & E & _).
  unfold refresh_generation in E. rewrite E.
  destruct o as [c|]; [|exists tr1; now right; left].
  rewrite update_lavalink_token_unfold.
  destruct (requests_post w tr1 _ _ _) as [r|e].
  - destruct (status_code r =? 204); eexists; [now left | now right; right].
  - eexists. now right; right.
Qed.

(** X11: a request is answered 200 only after Lavalink answered 204 to
    the POST of a generated pair whose token and visitor value are both
    true; that POST and its log line are the last events of the
    request. *)
Theorem refreshed_means_pushed (tr : trace) :
  snd (refresh_token json_loads w tr) = Ok (body_refreshed, 200) ->
  exists c tr1 r,
    fst (refresh_token json_loads w tr)
    = (tr1 ++ [push_event w (token c) (visitorData c);
               EvLog INFO "✅ Successfully updated Lavalink token!"])%list
    /\ requests_post w tr1 (push_url w) (push_headers w)
         (push_payload (token c) (visitorData c)) = Ok r
    /\ status_code r = 204
    /\ truthy (token c) = true
    /\ truthy (visitorData c) = true.
Proof.
  unfold refresh_token. rewrite refresh_route_cases.
  destruct (generation_returns
              (tr ++ [EvLog INFO "Token refresh requested via webhook"])
              %list) as (tr1 & o & E & Ho).
  unfold refresh_generation in E. rewrite E.
  destruct o as [c|]; [|discriminate].
  rewrite update_lavalink_token_unfold.
  destruct (requests_post w tr1 _ _ _) as [r|e] eqn:R; [|discriminate].
  destruct (status_code r =? 204) eqn:S; [|discriminate].
  intros _. exists c, tr1, r. destruct Ho as [Ht Hv].
  apply Z.eqb_eq in S. now repeat split.
Qed.

(** X12: a request sends at most one HTTP request, and none when it is
    answered [Failed to generate token]: the strategies never send one. *)
Theorem refresh_token_posts_at_most_once (tr : trace) :
  exists added,
    fst (refresh_token json_loads w tr) = (tr ++ added)%list
    /\ (List.length (filter is_post added) <= 1)%nat
    /\ (snd (refresh_token json_loads w tr)
        = Ok (body_error "Failed to generate token", 500) ->
        filter is_post added = []).
Proof.
  unfold refresh_token. rewrite refresh_route_cases.
  set (tr0 := (tr ++ [EvLog INFO "Token refresh requested via webhook"])
                %list).
  destruct (generation_no_post tr0) as (added_g & Eg & Hg).
  destruct (generation_returns tr0) as (tr1 & o & E & _).
  unfold refresh_generation in Eg, E. rewrite E in *. cbn [fst] in Eg. subst tr1.
  apply filter_is_post_none in Hg.
  destruct o as [c|].
  - rewrite update_lavalink_token_unfold.
    destruct (requests_post w _ _ _ _) as [r|e];
      [destruct (status_code r =? 204)|];
      (eexists; split;
       [unfold tr0; cbn [fst]; rewrite <- !app_assoc; reflexivity|];
       split;
       [rewrite !filter_app, Hg; cbn; lia | cbn [snd]; discriminate]).
  - exists ([EvLog INFO "Token refresh requested via webhook"] ++ added_g)
           %list.
    split; [|split].
    + unfold tr0. cbn [fst]. now rewrite <- app_assoc.
    + cbn [app filter is_post]. rewrite Hg. cbn. lia.
    + intros _. cbn [app filter is_post]. exact Hg.
Qed.

(** X13: with [USE_DOCKER] false a request never shows an event of the
    container strategy, whatever the local-process strategy returns. *)
Theorem docker_off_means_no_docker (tr : trace) :
  USE_DOCKER (environ w) = false ->
  exists added,
    fst (refresh_token json_loads w tr) = (tr ++ added)%list
    /\ Forall not_docker added.
Proof.
  intros Hoff. revert tr.
  change (only_emits not_docker (refresh_token json_loads w)).
  unfold refresh_token, refresh_route. rewrite Hoff.
  apply only_emits_try.
  - apply only_emits_bind; [now apply only_emits_call|intros _].
    apply only_emits_bind;
      [apply generate_token_python_no_docker|intros tokens].
    rewrite andb_false_r.
    apply only_emits_bind; [apply only_emits_ret|intros [c|]];
      [|apply only_emits_ret].
    apply only_emits_bind;
      [apply update_lavalink_token_no_docker|intros [|]];
      apply only_emits_ret.
  - intros e. apply only_emits_bind; [now apply only_emits_call|intros _].
    apply only_emits_ret.
Qed.

(** X14: when the local-process strategy returns [None], [USE_DOCKER] is
    true and the docker run raises, the generation step of the request is
    a second run of the local-process strategy: one request may run the
    generator twice. *)
Theorem fallback_runs_python_again (tr tr1 : trace) (e : exn) :
  let after_docker :=
    (tr1 ++ [EvLog INFO "Python method failed, trying Docker...";
             EvLog INFO "Generating new token using Docker..."])%list in
  generate_token_python json_loads w tr = (tr1, Ok None) ->
  USE_DOCKER (environ w) = true ->
  subprocess_run w after_docker docker_argv = Raise e ->
  refresh_generation json_loads w tr
  = generate_token_python json_loads w
      (after_docker ++ [EvRun docker_argv None 60 []; docker_fault_log e])
      %list.
Proof.
  intros after_docker Hpy Hon Hrun.
  unfold refresh_generation, generation, bind, log, emit, call.
  rewrite Hpy, Hon. cbn [no_tokens andb].
  rewrite generate_token_docker_unfold. cbv zeta.
  subst after_docker. rewrite <- !app_assoc. cbn [app]. rewrite Hrun.
  rewrite <- !app_assoc. reflexivity.
Qed.

End MoreRouteFacts.

Lemma refreshed_means_pushed_witness :
  exists c tr1 r,
    fst (refresh_token json_decode world_good [])
    = (tr1 ++ [push_event world_good (token c) (visitorData c);
               EvLog INFO "✅ Successfully updated Lavalink token!"])%list
    /\ requests_post world_good tr1 (push_url world_good)
         (push_headers world_good)
         (push_payload (token c) (visitorData c)) = Ok r
    /\ status_code r = 204
    /\ truthy (token c) = true
    /\ truthy (visitorData c) = true.
Proof.
  apply (refreshed_means_pushed json_decode world_good []).
  vm_compute. reflexivity.
Defined.

Lemma docker_off_means_no_docker_witness :
  exists added,
    fst (refresh_token json_decode world_no_generator_no_docker [])
    = added
    /\ Forall not_docker added.
Proof.
  apply (docker_off_means_no_docker json_decode
           world_no_generator_no_docker []).
  reflexivity.
Defined.

Lemma fallback_runs_python_again_witness :
  refresh_generation json_decode world_nothing_installed []
  = generate_token_python json_decode world_nothing_installed
      [EvLog INFO "Generating new token using Python method...";
       EvExists "/app/generator/main.py";
       EvExists "/app/generator/generate.py";
       EvGlob "/app/generator/*.py";
       EvLog ERROR "Generator script not found";
       EvLog INFO "Python method failed, trying Docker...";
       EvLog INFO "Generating new token using Docker...";
       EvRun docker_argv None 60 [];
       EvLog INFO "Docker not available, trying Python method..."].
Proof.
  apply (fallback_runs_python_again json_decode world_nothing_installed []
           [EvLog INFO "Generating new token using Python method...";
            EvExists "/app/generator/main.py";
            EvExists "/app/generator/generate.py";
            EvGlob "/app/generator/*.py";
            EvLog ERROR "Generator script not found"]
           (FileNotFoundError "[Errno 2] No such file or directory"));
    vm_compute; reflexivity.
Defined.

(** * The configuration and the information route *)

(** X15: normalising is idempotent: a service configured with the
    effective URL of another one has the same effective URL. *)
Theorem LAVALINK_URL_idempotent (env : string -> option string) :
  LAVALINK_URL (env_of [("LAVALINK_URL", LAVALINK_URL env)])
  = LAVALINK_URL env.
Proof.
  assert (Hn : forall u,
             let r := if negb (String.eqb u "") && negb (has_scheme u)
                      then ("http://" ++ u)%string else u in
             (if negb (String.eqb r "") && negb (has_scheme r)
              then ("http://" ++ r)%string else r) = r).
  { intros u. destruct (String.eqb u "") eqn:E; cbn [negb andb].
    - cbv zeta. now rewrite E.
    - destruct (has_scheme u) eqn:S; cbn [negb]; cbv zeta.
      + now rewrite E, S.
      + reflexivity. }
  exact (Hn (getenv env "LAVALINK_URL" "http://localhost:9296")).
Qed.

(** X16: the URL that [GET /] reports is the base of the URL the updater
    posts to: the POST goes to that URL followed by [/youtube]. *)
Theorem index_reports_push_base (w : world) (tok vis : pyval)
  (tr tr0 : trace) :
  exists body base lvl msg ok,
    index w tr0 = (tr0, Ok (PDict body, 200))
    /\ dict_get body "lavalink_url" = PStr base
    /\ update_lavalink_token w tok vis tr
       = ((tr ++ [EvPost (base ++ "/youtube") (push_headers w)
                    (push_payload tok vis) 10;
                  EvLog lvl msg])%list,
          Ok ok).
Proof.
  eexists _, (LAVALINK_URL (environ w)).
  rewrite update_lavalink_token_unfold.
  destruct (requests_post w tr _ _ _) as [r|e];
    [destruct (status_code r =? 204)|];
    eexists _, _, _; (split; [reflexivity|]); now split.
Qed.

(** * Which script the local-process strategy runs *)

Section GeneratorChoice.

Variable json_loads : string -> option pyval.
Variable w : world.

Ltac launch_shown :=
  unfold_strategy; unfold generator_launch;
  repeat match goal with H : _ = _ |- _ => rewrite H; clear H end;
  split_matches; eexists;
  cbn [fst]; rewrite <- ?app_assoc; cbn [app]; reflexivity.

(** X17: the script run is [main.py] when it exists, else [generate.py]
    when that exists, else the first script the glob returns; in each case,
    once Xvfb has started, the strategy waits a second and runs that
    script right after its looks at the file system. *)
Theorem python_script_choice (tr : trace) :
  let main := "/app/generator/main.py" in
  let generate := "/app/generator/generate.py" in
  let xvfb := ["Xvfb"; ":99"; "-screen"; "0"; "1024x768x24"] in
  let tr0 :=
    (tr ++ [EvLog INFO "Generating new token using Python method..."])%list in
  let tr1 := (tr0 ++ [EvExists main])%list in
  (path_exists w tr0 main = true ->
   path_exists w tr1 main = true ->
   popen w (tr1 ++ [EvExists main])%list xvfb = Ok tt ->
   exists rest,
     fst (generate_token_python json_loads w tr)
     = (tr ++ [EvLog INFO "Generating new token using Python method...";
               EvExists main; EvExists main]
           ++ generator_launch main ++ rest)%list)
  /\ (path_exists w tr0 main = false ->
      path_exists w tr1 generate = true ->
      popen w (tr1 ++ [EvExists generate])%list xvfb = Ok tt ->
      exists rest,
        fst (generate_token_python json_loads w tr)
        = (tr ++ [EvLog INFO "Generating new token using Python method...";
                  EvExists main; EvExists generate]
              ++ generator_launch generate ++ rest)%list)
  /\ (forall first others,
      path_exists w tr0 main = false ->
      path_exists w tr1 generate = false ->
      glob_glob w (tr1 ++ [EvExists generate])%list "/app/generator/*.py"
      = first :: others ->
      popen w (tr1 ++ [EvExists generate; EvGlob "/app/generator/*.py"])%list
        xvfb = Ok tt ->
      exists rest,
        fst (generate_token_python json_loads w tr)
        = (tr ++ [EvLog INFO "Generating new token using Python method...";
                  EvExists main; EvExists generate;
                  EvGlob "/app/generator/*.py"]
              ++ generator_launch first ++ rest)%list).
Proof.
  intros main generate xvfb tr0 tr1. subst main generate xvfb tr0 tr1.
  split; [|split].
  - intros H1 H2 H3. launch_shown.
  - intros H1 H2 H3. launch_shown.
  - intros first others H1 H2 H3 H4.
    change [EvExists "/app/generator/generate.py";
            EvGlob "/app/generator/*.py"]
      with ([EvExists "/app/generator/generate.py"]
            ++ [EvGlob "/app/generator/*.py"])%list in H4.
    rewrite app_assoc in H4. launch_shown.
Qed.

End GeneratorChoice.

Lemma python_script_choice_witness :
  (exists rest,
     fst (generate_token_python json_decode world_good [])
     = ([EvLog INFO "Generating new token using Python method...";
         EvExists "/app/generator/main.py";
         EvExists "/app/generator/main.py"]
          ++ generator_launch "/app/generator/main.py" ++ rest)%list)
  /\ (exists rest,
        fst (generate_token_python json_decode world_other_script [])
        = ([EvLog INFO "Generating new token using Python method...";
            EvExists "/app/generator/main.py";
            EvExists "/app/generator/generate.py";
            EvGlob "/app/generator/*.py"]
             ++ generator_launch "/app/generator/potoken.py" ++ rest)%list).
Proof.
  split.
  - exact (proj1 (python_script_choice json_decode world_good [])
             eq_refl eq_refl eq_refl).
  - exact (proj2 (proj2 (python_script_choice json_decode
                           world_other_script []))
             "/app/generator/potoken.py" [] eq_refl eq_refl eq_refl eq_refl).
Defined.
